(** * nasaapp-backend: the bee-map grid sampling and scoring pipeline

    A shallow embedding of [src/server.js] (the basic variant: one batched
    temperature request, every grid point returned) and of
    [src/unnamed/part_000] (the extended variant: one temperature request
    per point with a fallback, GLOBE observations, filtering).

    JavaScript numbers are IEEE 754 binary64 values; they are modelled by
    Rocq's primitive floats, whose operations are the same correctly
    rounded binary64 operations. Numeric literals are read to the nearest
    double, as the JavaScript parser does. *)

From Stdlib Require Import String ZArith List Bool Lia Floats.
Import ListNotations.

Set Warnings "-inexact-float,-abstract-large-number".
Local Open Scope float_scope.

(** ** JavaScript values that reach the pipeline *)

Module JS.

(** A temperature slot holds a number, [null] (JSON null) or [undefined]
    (a missing property, or an array read past the end). *)
Inductive value : Type :=
| Undefined
| Null
| Num (x : float).

(** [ToBoolean]: [undefined], [null], [+0], [-0] and [NaN] are falsy. *)
Definition truthy (v : value) : bool :=
  match v with
  | Undefined | Null => false
  | Num x => negb ((x =? 0) || is_nan x)
  end.

(** [a || b] on values. *)
Definition or_else (a b : value) : value := if truthy a then a else b.

(** [a >= b], [a > b] on numbers: false as soon as a side is NaN. *)
Definition geb (a b : float) : bool := b <=? a.
Definition gtb (a b : float) : bool := b <? a.

(** A loop counter held in a double; exact below 2^53, far above any
    resolution a grid can have. *)
Definition of_nat (n : nat) : float := of_uint63 (Uint63.of_Z (Z.of_nat n)).

End JS.

Notation "x >=? y" := (JS.geb x y) (at level 70, no associativity) : float_scope.
Notation "x >? y" := (JS.gtb x y) (at level 70, no associativity) : float_scope.

(** ** The wall clock

    [new Date()] reads the system clock; [getMonth] is its month in local
    time, 0 = January .. 11 = December. *)

Record Date : Type := mkDate {
  getFullYear : Z;
  getMonth : Z;
  getDate : Z
}.

(** ** Suitability scorer: [calcularPontuacaoAbelha]

    The two variants differ only in the spelling of the null test
    ([=== null || === undefined] against [== null]), which agree on every
    value. The first argument is the instant at which [new Date()] is
    evaluated inside the function. *)

Definition calcularPontuacaoAbelha
  (now : Date) (temperature : JS.value) (hasVegetation : bool)
  (latitude : float) : float :=
  match temperature with
  | JS.Null | JS.Undefined => 0
  | JS.Num temperature =>
    let vegetationScore := if hasVegetation then 1.0 else 0.05 in
    let tempScore :=
      if (temperature >=? 20) && (temperature <=? 32) then 1.0
      else if (temperature >? 15) && (temperature <? 38) then 0.5
      else 0 in
    let currentMonth := getMonth now in
    let isNorthernHemisphere := latitude >? 0 in
    let seasonalityScore :=
      if isNorthernHemisphere then
        if ((currentMonth >=? 2) && (currentMonth <=? 7))%Z then 1.0
        else if ((currentMonth =? 8) || (currentMonth =? 9))%Z then 0.5
        else 0.1
      else
        if ((currentMonth >=? 8) || (currentMonth <=? 1))%Z then 1.0
        else if ((currentMonth =? 2) || (currentMonth =? 3))%Z then 0.5
        else 0.1 in
    vegetationScore * tempScore * seasonalityScore
  end.

(** *** The scorer as the specification words it *)

Module ScoreSpec.

Definition vegetationFactor (hasVegetation : bool) : float :=
  if hasVegetation then 1.0 else 0.05.

Definition in_closed (lo hi t : float) : bool := (lo <=? t) && (t <=? hi).
Definition in_open (lo hi t : float) : bool := (lo <? t) && (t <? hi).

Definition temperatureFactor (t : float) : float :=
  if in_closed 20 32 t then 1.0
  else if in_open 15 38 t && negb (in_closed 20 32 t) then 0.5
  else 0.0.

Definition northern (latitude : float) : bool := 0 <? latitude.

Definition northTable (m : Z) : float :=
  if ((2 <=? m) && (m <=? 7))%Z then 1.0
  else if ((m =? 8) || (m =? 9))%Z then 0.5
  else 0.1.

Definition southTable (m : Z) : float :=
  if ((8 <=? m) || (m <=? 1))%Z then 1.0
  else if ((m =? 2) || (m =? 3))%Z then 0.5
  else 0.1.

Definition seasonalityFactor (m : Z) (latitude : float) : float :=
  if northern latitude then northTable m else southTable m.

Definition score (m : Z) (t : JS.value) (v : bool) (latitude : float) : float :=
  match t with
  | JS.Num t => vegetationFactor v * temperatureFactor t * seasonalityFactor m latitude
  | _ => 0.0
  end.

Definition in_unit (w : float) : bool := (0 <=? w) && (w <=? 1).

End ScoreSpec.

(** ** Decimal rendering: [Number.prototype.toFixed] and [parseFloat]

    [x.toFixed(d)] is a string; only its numeric content is modelled. For a
    finite [x] below 1e21 in magnitude it is the sign and the integer [n]
    with [n / 10^d] closest to [|x|], the larger [n] on a tie. *)

Inductive Numeral : Type :=
| NaNStr
| InfinityStr (negative : bool)
| Fixed (negative : bool) (n : Z) (digits : nat)
| Plain (x : float).

(** [floor (m * 2^e * 10^d + 1/2)] in exact integer arithmetic. *)
Definition round_half_up (m : positive) (e : Z) (d : nat) : Z :=
  let scaled := (Zpos m * 10 ^ Z.of_nat d)%Z in
  if (0 <=? e)%Z then (scaled * 2 ^ e)%Z
  else ((2 * scaled + 2 ^ (- e)) / 2 ^ (- e + 1))%Z.

Definition toFixed (d : nat) (x : float) : Numeral :=
  match Prim2SF x with
  | S754_nan => NaNStr
  | S754_infinity s => InfinityStr s
  | S754_zero _ => Fixed false 0 d
  | S754_finite s m e =>
    if abs x <? 1e21 then Fixed s (round_half_up m e d) d else Plain x
  end.

Definition of_Z (n : Z) : float := of_uint63 (Uint63.of_Z n).

(** [parseFloat] of a rendered numeral: the double nearest to the decimal,
    which for [n] below 2^53 is the correctly rounded quotient. The
    handlers parse back only a weight rendered to three decimals, where [n]
    is at most 1000. *)
Definition parseFloat (s : Numeral) : float :=
  match s with
  | NaNStr => nan
  | InfinityStr false => infinity
  | InfinityStr true => neg_infinity
  | Fixed negative n d =>
    let q := of_Z n / of_Z (10 ^ Z.of_nat d) in
    if negative then - q else q
  | Plain x => x
  end.

(** ** Geometry *)

Record GridPoint : Type := mkPoint { lat : float; lon : float }.

Record BoundingBox : Type := mkBox {
  south : float; west : float; north : float; east : float
}.

(** A polygon is an array of [[lon, lat]] pairs. *)
Definition Polygon : Type := list (float * float).

(** Lines 56-60 of [server.js], 94-98 of the extended variant, with the
    constant [buffer] as a parameter. *)
Definition boundingBox (lat lon buffer : float) : BoundingBox :=
  {| south := lat - buffer; west := lon - buffer;
     north := lat + buffer; east := lon + buffer |}.

(** [for (let i = 0; i < n; i++) body]: the state after the loop. *)
Definition for_upto {S : Type} (n : nat) (body : nat -> S -> S) (s : S) : S :=
  fold_left (fun acc i => body i acc) (seq 0 n) s.

(** [a.push(x)] *)
Definition push {A : Type} (a : list A) (x : A) : list A := a ++ [x].

(** The grid loop (lines 90-98 of [server.js], 120-126 of the extended
    variant), with the constant [gridSize] as a parameter. *)
Definition gridLoop (b : BoundingBox) (gridSize : nat) : list GridPoint :=
  for_upto gridSize (fun i gridPoints =>
    for_upto gridSize (fun j gridPoints =>
      let pointLat :=
        south b + (JS.of_nat i * (north b - south b)) / (JS.of_nat gridSize - 1) in
      let pointLon :=
        west b + (JS.of_nat j * (east b - west b)) / (JS.of_nat gridSize - 1) in
      push gridPoints (mkPoint pointLat pointLon))
    gridPoints) [].

(** In [server.js] the same loop also pushes [pointLat.toFixed(2)] and
    [pointLon.toFixed(2)] for the forecast request. *)
Definition lat_params (gridPoints : list GridPoint) : list Numeral :=
  map (fun point => toFixed 2 (lat point)) gridPoints.

Definition lon_params (gridPoints : list GridPoint) : list Numeral :=
  map (fun point => toFixed 2 (lon point)) gridPoints.

(** The specification's [generateGrid(center, buffer, resolution)]: the
    bounding box followed by the grid loop. *)
Definition generateGrid (lat lon buffer : float) (resolution : nat) : list GridPoint :=
  gridLoop (boundingBox lat lon buffer) resolution.

(** The grid as the specification words it: point [(i, j)] of an [N] by [N]
    grid over box [b], in the arithmetic of doubles. *)
Definition pointAt (b : BoundingBox) (N i j : nat) : GridPoint :=
  {| lat := south b + JS.of_nat i * (north b - south b) / (JS.of_nat N - 1);
     lon := west b + JS.of_nat j * (east b - west b) / (JS.of_nat N - 1) |}.

(** [a === b] on two points, coordinate by coordinate. *)
Definition same_point (p q : GridPoint) : bool :=
  (lat p =? lat q) && (lon p =? lon q).

(** The largest resolution whose [N * N] points fit a JavaScript array
    (length below 2^32). *)
Definition maxResolution : nat := 65535.

(** [N - 1 > 0] as doubles, for [N] from [z] to [z + fuel - 1]. *)
Fixpoint divisor_positive_from (fuel : nat) (z : Z) : bool :=
  match fuel with
  | O => true
  | S fuel' => (0 <? of_Z z - 1) && divisor_positive_from fuel' (z + 1)
  end.

(** The constants both handlers use. *)
Definition buffer : float := 0.5.
Definition gridSize : nat := 15.

(** An array with the index of each element. *)
Definition indexed {A : Type} (a : list A) : list (A * nat) :=
  combine a (seq 0 (List.length a)).

(** ** Upstream services

    [axios.get] either resolves with a response whose [data] is the decoded
    JSON body, or rejects. Only the shapes the handlers read are told apart. *)

Inductive ErrorCode : Type :=
| ECONNABORTED
| ERR_BAD_REQUEST (status : Z)
| ERR_BAD_RESPONSE (status : Z)
| ERR_NETWORK.

(** What a [catch] clause can receive: a rejected request, or the
    [TypeError] of a property read on [undefined] or [null]. *)
Inductive Exn : Type :=
| AxiosError (code : ErrorCode)
| TypeError.

Record Node : Type := mkNode { node_lat : float; node_lon : float }.

(** One entry of a forecast body: [d.current.temperature_2m] throws when
    [d.current] is missing, and otherwise is a value (possibly
    [undefined]). *)
Inductive Entry : Type :=
| NoCurrent
| Current (temperature_2m : JS.value).

Record Properties : Type := mkProperties {
  p_siteName : string;
  p_countryName : string;
  p_organizationName : string;
  p_elevation : JS.value
}.

Record Feature : Type := mkFeature {
  f_id : Z;
  f_properties : Properties;
  f_coordinates : list float
}.

(** Response bodies: an Overpass body with its [elements], each the
    [geometry] of a way; a forecast body, an array of entries or a single
    entry; a GLOBE body with or without a [features] array; anything else. *)
Inductive Data : Type :=
| OsmJson (elements : list (list Node))
| ForecastArray (entries : list Entry)
| ForecastObject (entry : Entry)
| GeoJson (features : option (list Feature))
| OtherJson.

(** Request URLs, by what they carry: the bounding box of the Overpass
    query; the latitude and longitude lists of a forecast request and
    whether it sets [temperature_unit=celsius]; the fixed GLOBE query. *)
Inductive Url : Type :=
| OverpassUrl (bbox : BoundingBox)
| ForecastUrl (latitude longitude : list Numeral) (celsius : bool)
| GlobeUrl.

(** A GLOBE observation as [fetchGlobeData] returns it; [coordinates] is
    the GeoJSON array [[lon, lat]]. *)
Record Observation : Type := mkObservation {
  id : Z;
  siteName : string;
  countryName : string;
  organizationName : string;
  elevation : JS.value;
  coordinates : list float
}.

(** [a[k]] on an array of numbers; a missing element is [undefined], which
    every arithmetic operator and comparison below turns into NaN. *)
Definition at_index (a : list float) (k : nat) : float := nth k a nan.

(** The points the two variants return. *)
Record HeatPoint : Type := mkHeatPoint {
  hp_latitude : float;
  hp_longitude : float;
  hp_weight : float
}.

Record ScoredPoint : Type := mkScoredPoint {
  latitude : float;
  longitude : float;
  weight : float;
  temperature : JS.value;
  globe : option Observation
}.

Inductive Response (A : Type) : Type :=
| Status200 (body : A)
| Status400
| Status500
| Status504.

Arguments Status200 {A} body.
Arguments Status400 {A}.
Arguments Status500 {A}.
Arguments Status504 {A}.

(** ** The effects of a handler

    A handler run threads the outside world and the list of requests it has
    issued, and may throw. *)

Record State (World : Type) : Type := mkState {
  world : World;
  requests : list Url
}.

Arguments mkState {World} world requests.
Arguments world {World} s.
Arguments requests {World} s.

Definition M (World A : Type) : Type := State World -> (Exn + A) * State World.

Definition ret {World A : Type} (a : A) : M World A := fun s => (inr a, s).

Definition throw {World A : Type} (e : Exn) : M World A := fun s => (inl e, s).

Definition bind {World A B : Type} (c : M World A) (k : A -> M World B) : M World B :=
  fun s =>
    match c s with
    | (inl e, s') => (inl e, s')
    | (inr a, s') => k a s'
    end.

(** [try { c } catch (err) { h err }] *)
Definition try_catch {World A : Type} (c : M World A) (h : Exn -> M World A) : M World A :=
  fun s =>
    match c s with
    | (inl e, s') => h e s'
    | (inr a, s') => (inr a, s')
    end.

Notation "x <- c ;; k" := (bind c (fun x => k))
  (at level 61, c at next level, right associativity).

(** [a.map((x, index) => f(x, index))] *)
Fixpoint mapi_from {A B : Type} (start : nat) (f : A -> nat -> B) (a : list A) : list B :=
  match a with
  | [] => []
  | x :: rest => f x start :: mapi_from (S start) f rest
  end.

Definition mapi {A B : Type} (f : A -> nat -> B) (a : list A) : list B :=
  mapi_from 0 f a.

(** [a.filter(Boolean)] on an array of objects and [null]s. *)
Fixpoint filter_Boolean {A : Type} (a : list (option A)) : list A :=
  match a with
  | [] => []
  | None :: rest => filter_Boolean rest
  | Some x :: rest => x :: filter_Boolean rest
  end.

(** [a[index]] on the temperature array. *)
Definition temperature_at (temperatures : list JS.value) (index : nat) : JS.value :=
  nth index temperatures JS.Undefined.

(** ** The two handlers of [/api/bee-map] *)

Section Handlers.

(** The outside world: the network behind [axios.get] (with the request's
    timeout in milliseconds, when it sets one), the timer behind
    [setTimeout], the system clock as the scorer call for grid index [k]
    reads it, and the [point-in-polygon] package. *)
Context {World : Type}.
Variable axios_get : Url -> option Z -> World -> (Exn + Data) * World.
Variable setTimeout : Z -> World -> World.
Variable clock : World -> nat -> Date.
Variable pointInPolygon : float * float -> Polygon -> bool.

(** [await axios.get(url, { timeout })], recording the request. *)
Definition get (url : Url) (timeout : option Z) : M World Data :=
  fun s =>
    let (r, w) := axios_get url timeout (world s) in
    (r, mkState w (push (requests s) url)).

(** [await new Promise((r) => setTimeout(r, ms))] *)
Definition sleep (ms : Z) : M World unit :=
  fun s => (inr tt, mkState (setTimeout ms (world s)) (requests s)).

(** [osmResponse.data.elements.map((el) => el.geometry.map((n) => [n.lon, n.lat]))] *)
Definition vegetationPolygons_of (data : Data) : M World (list Polygon) :=
  match data with
  | OsmJson elements =>
    ret (map (fun el => map (fun n => (node_lon n, node_lat n)) el) elements)
  | _ => throw TypeError
  end.

(** [vegetationPolygons.some((polygon) => pointInPolygon([point.lon, point.lat], polygon))] *)
Definition hasVegetation_at (vegetationPolygons : list Polygon) (point : GridPoint) : bool :=
  existsb (fun polygon => pointInPolygon (lon point, lat point) polygon) vegetationPolygons.

(** *** Basic variant ([src/server.js]) *)

(** [d.current.temperature_2m] *)
Definition read_entry (d : Entry) : M World JS.value :=
  match d with
  | Current t => ret t
  | NoCurrent => throw TypeError
  end.

(** [temperaturesData.map((d) => d.current.temperature_2m)] *)
Fixpoint read_entries (temperaturesData : list Entry) : M World (list JS.value) :=
  match temperaturesData with
  | [] => ret []
  | d :: rest =>
    t <- read_entry d ;;
    ts <- read_entries rest ;;
    ret (t :: ts)
  end.

(** Lines 107-110: [Array.isArray(data) ? data : [data]], then the map. A
    body of another shape is wrapped in a one-element array whose element
    has no [current]. *)
Definition batchTemperatures (data : Data) : M World (list JS.value) :=
  match data with
  | ForecastArray entries => read_entries entries
  | ForecastObject entry => read_entries [entry]
  | _ => throw TypeError
  end.

(** The entries of a batched body, and their temperatures when every entry
    is readable: what [batchTemperatures] computes when it does not throw. *)
Definition batchEntries (data : Data) : option (list Entry) :=
  match data with
  | ForecastArray entries => Some entries
  | ForecastObject entry => Some [entry]
  | _ => None
  end.

Fixpoint readable (entries : list Entry) : option (list JS.value) :=
  match entries with
  | [] => Some []
  | NoCurrent :: _ => None
  | Current t :: rest =>
    match readable rest with
    | Some ts => Some (t :: ts)
    | None => None
    end
  end.

(** Lines 113-131. *)
Definition heatmapData (w : World) (vegetationPolygons : list Polygon)
  (temperatures : list JS.value) (gridPoints : list GridPoint) : list HeatPoint :=
  mapi (fun point index =>
    let hasVegetation := hasVegetation_at vegetationPolygons point in
    let temperature := temperature_at temperatures index in
    let beeScore :=
      calcularPontuacaoAbelha (clock w index) temperature hasVegetation (lat point) in
    mkHeatPoint (lat point) (lon point) beeScore) gridPoints.

(** The body of the [try] block, after the coordinates are parsed. *)
Definition basicBody (lat lon : float) : M World (Response (list HeatPoint)) :=
  if is_nan lat || is_nan lon then ret Status400
  else
    let bbox := boundingBox lat lon buffer in
    osmResponse <- get (OverpassUrl bbox) (Some 25000%Z) ;;
    vegetationPolygons <- vegetationPolygons_of osmResponse ;;
    let gridPoints := gridLoop bbox gridSize in
    weatherResponse <-
      get (ForecastUrl (lat_params gridPoints) (lon_params gridPoints) false) None ;;
    temperatures <- batchTemperatures weatherResponse ;;
    fun s => ret (Status200 (heatmapData (world s) vegetationPolygons temperatures gridPoints)) s.

(** The [catch] clause of the basic variant. *)
Definition basicCatch (error : Exn) : M World (Response (list HeatPoint)) :=
  match error with
  | AxiosError ECONNABORTED => ret Status504
  | _ => ret Status500
  end.

Definition beeMapBasic (lat lon : float) : M World (Response (list HeatPoint)) :=
  try_catch (basicBody lat lon) basicCatch.

(** *** Extended variant ([src/unnamed/part_000]) *)

Definition DELAY_MS : Z := 1500.

(** [response.data.current.temperature_2m] on a single-point body. *)
Definition pointTemperature (data : Data) : M World JS.value :=
  match data with
  | ForecastObject entry => read_entry entry
  | _ => throw TypeError
  end.

(** Lines 133-154: one request per point, a fallback on any failure, and
    the pause after each point. *)
Fixpoint fetchTemperatures (gridPoints : list GridPoint) (temperatures : list JS.value)
  : M World (list JS.value) :=
  match gridPoints with
  | [] => ret temperatures
  | point :: rest =>
    let weatherUrl :=
      ForecastUrl [toFixed 4 (lat point)] [toFixed 4 (lon point)] true in
    temperatures <-
      try_catch
        (response <- get weatherUrl (Some 15000%Z) ;;
         t <- pointTemperature response ;;
         ret (push temperatures t))
        (fun err => ret (push temperatures (JS.Num 25))) ;;
    _ <- sleep DELAY_MS ;;
    fetchTemperatures rest temperatures
  end.

(** What the upstream answers to the per-point requests of one run of the
    loop, in order: for each point the request of lines 141-142 and the read
    of its body, then the pause. *)
Definition fetchOne (point : GridPoint) : M World JS.value :=
  response <-
    get (ForecastUrl [toFixed 4 (lat point)] [toFixed 4 (lon point)] true)
        (Some 15000%Z) ;;
  pointTemperature response.

Fixpoint pointOutcomes (gridPoints : list GridPoint) (s : State World)
  : list (Exn + JS.value) * State World :=
  match gridPoints with
  | [] => ([], s)
  | point :: rest =>
    let (r, s1) := fetchOne point s in
    let (_, s2) := sleep DELAY_MS s1 in
    let (os, s3) := pointOutcomes rest s2 in
    (r :: os, s3)
  end.

(** The value a slot holds after a fetch: the fallback after a failure, the
    fetched value otherwise. *)
Definition recover (o : Exn + JS.value) : JS.value :=
  match o with
  | inl _ => JS.Num 25
  | inr t => t
  end.

(** [fetchGlobeData], lines 50-80. *)
Definition toObservation (f : Feature) : Observation :=
  {| id := f_id f;
     siteName := p_siteName (f_properties f);
     countryName := p_countryName (f_properties f);
     organizationName := p_organizationName (f_properties f);
     elevation := p_elevation (f_properties f);
     coordinates := f_coordinates f |}.

Definition inBox (b : BoundingBox) (f : Observation) : bool :=
  (at_index (coordinates f) 1 >=? south b) &&
  (at_index (coordinates f) 1 <=? north b) &&
  (at_index (coordinates f) 0 >=? west b) &&
  (at_index (coordinates f) 0 <=? east b).

Definition fetchGlobeData (b : BoundingBox) : M World (list Observation) :=
  try_catch
    (response <- get GlobeUrl (Some 20000%Z) ;;
     let features :=
       match response with
       | GeoJson (Some features) => features
       | _ => []
       end in
     ret (filter (inBox b) (map toObservation features)))
    (fun err => ret []).

(** The predicate of [globeData.find], lines 176-178. *)
Definition near (point : GridPoint) (g : Observation) : bool :=
  (abs (at_index (coordinates g) 1 - lat point) <? 0.001) &&
  (abs (at_index (coordinates g) 0 - lon point) <? 0.001).

(** Lines 175-179 and 186: [globeData.find(...)], then [globePoint || null]. *)
Definition attachNearest (point : GridPoint) (globeData : list Observation)
  : option Observation :=
  find (near point) globeData.

(** The callback of [gridPoints.map], lines 161-188; [None] is [null]. *)
Definition scorePoint (w : World) (vegetationPolygons : list Polygon)
  (temperatures : list JS.value) (globeData : list Observation)
  (point : GridPoint) (index : nat) : option ScoredPoint :=
  let hasVegetation := hasVegetation_at vegetationPolygons point in
  if negb hasVegetation then None
  else
    let temperature := JS.or_else (temperature_at temperatures index) (JS.Num 25) in
    let beeScore :=
      calcularPontuacaoAbelha (clock w index) temperature true (lat point) in
    if beeScore <? 0.05 then None
    else
      let globePoint := attachNearest point globeData in
      Some {| latitude := lat point;
              longitude := lon point;
              weight := parseFloat (toFixed 3 beeScore);
              temperature := temperature;
              globe := globePoint |}.

(** Lines 160-189. *)
Definition result (w : World) (vegetationPolygons : list Polygon)
  (temperatures : list JS.value) (globeData : list Observation)
  (gridPoints : list GridPoint) : list ScoredPoint :=
  filter_Boolean
    (mapi (scorePoint w vegetationPolygons temperatures globeData) gridPoints).

(** The score the extended variant computes for grid point [p] of index [k]. *)
Definition extendedScore (w : World) (temperatures : list JS.value)
  (p : GridPoint) (k : nat) : float :=
  calcularPontuacaoAbelha (clock w k)
    (JS.or_else (temperature_at temperatures k) (JS.Num 25)) true (lat p).

(** The filtering policy of the extended variant, as the specification
    words it: vegetated, and scoring at least the threshold. *)
Definition keptByPolicy (w : World) (polys : list Polygon)
  (temperatures : list JS.value) (pk : GridPoint * nat) : bool :=
  hasVegetation_at polys (fst pk) &&
  (extendedScore w temperatures (fst pk) (snd pk) >=? 0.05).

Definition toScoredPoint (w : World) (temperatures : list JS.value)
  (globeData : list Observation) (pk : GridPoint * nat) : ScoredPoint :=
  {| latitude := lat (fst pk);
     longitude := lon (fst pk);
     weight := parseFloat (toFixed 3 (extendedScore w temperatures (fst pk) (snd pk)));
     temperature := JS.or_else (temperature_at temperatures (snd pk)) (JS.Num 25);
     globe := attachNearest (fst pk) globeData |}.

Definition extendedBody (lat lon : float) : M World (Response (list ScoredPoint)) :=
  if is_nan lat || is_nan lon then ret Status400
  else
    let bbox := boundingBox lat lon buffer in
    osmResponse <- get (OverpassUrl bbox) (Some 25000%Z) ;;
    vegetationPolygons <- vegetationPolygons_of osmResponse ;;
    let gridPoints := gridLoop bbox gridSize in
    temperatures <- fetchTemperatures gridPoints [] ;;
    globeData <- fetchGlobeData bbox ;;
    fun s => ret (Status200 (result (world s) vegetationPolygons temperatures globeData gridPoints)) s.

Definition beeMapExtended (lat lon : float) : M World (Response (list ScoredPoint)) :=
  try_catch (extendedBody lat lon) (fun err => ret Status500).

End Handlers.

(** ** A simulated upstream

    A small concrete world on which the handlers can be run: the state
    counts the forecast requests answered so far; Overpass returns one
    square polygon; the per-point forecast rejects the request numbered
    [failing] with HTTP 429 and otherwise reports [20 + k mod 8] degrees
    for request [k]; the batched forecast answers with the array [batch]; GLOBE
    returns the features [features]. *)

Module Sim.

Definition World : Type := nat.

Definition square : list Node :=
  [mkNode 40 (-3); mkNode 40 (-2); mkNode 41 (-2); mkNode 41 (-3)].

Definition axios_get (failing : nat) (batch : list Entry) (features : list Feature)
  (url : Url) (timeout : option Z) (w : World) : (Exn + Data) * World :=
  match url with
  | OverpassUrl _ => (inr (OsmJson [square]), w)
  | ForecastUrl _ _ true =>
    (if Nat.eqb w failing then inl (AxiosError (ERR_BAD_REQUEST 429))
     else inr (ForecastObject (Current (JS.Num (20 + JS.of_nat (w mod 8))))),
     S w)
  | ForecastUrl _ _ false => (inr (ForecastArray batch), S w)
  | GlobeUrl => (inr (GeoJson (Some features)), w)
  end.

Definition setTimeout (ms : Z) (w : World) : World := w.

(** The clock stands still on 1 July 2025. *)
Definition clock (w : World) (k : nat) : Date := mkDate 2025 6 1.

(** A stand-in for the [point-in-polygon] package: the even-odd ray
    casting test over the edges [(vj, vi)], [vj] the vertex before [vi]. *)
Fixpoint crossings (x y : float) (vj : float * float) (vs : list (float * float))
  (inside : bool) : bool :=
  match vs with
  | [] => inside
  | vi :: rest =>
    let '(xi, yi) := vi in
    let '(xj, yj) := vj in
    let intersect :=
      negb (Bool.eqb (yi >? y) (yj >? y)) &&
      (x <? (xj - xi) * (y - yi) / (yj - yi) + xi) in
    crossings x y vi rest (if intersect then negb inside else inside)
  end.

Definition pointInPolygon (point : float * float) (vs : Polygon) : bool :=
  let '(x, y) := point in
  crossings x y (last vs (nan, nan)) vs false.

Definition start : State World := mkState 0%nat [].

End Sim.

(** ** Further upstreams for running the handlers

    [pointUrl] is the URL of lines 134-138 for one grid point. The worlds
    of [Probe] are variations of the simulated upstream: one that answers
    Overpass and GLOBE as told, and one whose state is the time elapsed. *)

Definition pointUrl (point : GridPoint) : Url :=
  ForecastUrl [toFixed 4 (lat point)] [toFixed 4 (lon point)] true.

(** The upstream's answers to the per-point forecast requests of one run
    of the sequential loop, read off the network alone: the request for a
    point is put to the world as the previous request and the 1500 ms timer
    have left it. *)
Fixpoint upstreamAnswers {World : Type}
  (axios_get : Url -> option Z -> World -> (Exn + Data) * World)
  (setTimeout : Z -> World -> World)
  (gridPoints : list GridPoint) (w : World) : list (Exn + Data) :=
  match gridPoints with
  | [] => []
  | point :: rest =>
    let (answer, w1) :=
      axios_get (ForecastUrl [toFixed 4 (lat point)] [toFixed 4 (lon point)] true)
                (Some 15000%Z) w in
    answer :: upstreamAnswers axios_get setTimeout rest (setTimeout 1500%Z w1)
  end.

(** The slot an answer leaves: the temperature of a body [{ current:
    { temperature_2m } }], the fallback for a rejection or any other body. *)
Definition slotOf (answer : Exn + Data) : JS.value :=
  match answer with
  | inr (ForecastObject (Current t)) => t
  | _ => JS.Num 25
  end.

Module Probe.

(** Overpass answers [osm], GLOBE answers [globe], every forecast request
    reports 25 degrees. *)
Definition axios_get (osm globe : Exn + Data) (url : Url) (timeout : option Z)
  (w : Sim.World) : (Exn + Data) * Sim.World :=
  match url with
  | OverpassUrl _ => (osm, w)
  | ForecastUrl _ _ true => (inr (ForecastObject (Current (JS.Num 25))), S w)
  | ForecastUrl _ _ false => (inr (ForecastArray []), S w)
  | GlobeUrl => (globe, w)
  end.

(** A world that is a clock in milliseconds: a request that times out
    takes its timeout, any other request takes 100 ms, and a timer takes
    its delay. *)
Definition timed_get (url : Url) (timeout : option Z) (w : Z) : (Exn + Data) * Z :=
  match url, timeout with
  | ForecastUrl _ _ true, Some t => (inl (AxiosError ECONNABORTED), (w + Z.max 0 t)%Z)
  | _, _ => (inr OtherJson, (w + 100)%Z)
  end.

Definition timed_setTimeout (ms : Z) (w : Z) : Z := (w + ms)%Z.

(** An observation with a one-element [coordinates] array. *)
Definition stub : Observation :=
  mkObservation 7 "site" "country" "org" JS.Null [40].

End Probe.

(** * Properties *)

(** ** The scorer *)

Ltac split_bools :=
  repeat match goal with
  | |- context [if ?b then _ else _] => destruct b eqn:?
  | |- context [?a && ?b] => destruct a eqn:?; cbn [andb]
  | |- context [?a || ?b] => destruct a eqn:?; cbn [orb]
  end.

(** The wall clock enters the scorer through [getMonth] alone, and the code
    computes the product the specification names. *)
Lemma calcularPontuacaoAbelha_refines (now : Date) (t : JS.value) (v : bool)
  (latitude : float) :
  calcularPontuacaoAbelha now t v latitude =
  ScoreSpec.score (getMonth now) t v latitude.
Proof.
  destruct t as [| |x]; try reflexivity.
  unfold calcularPontuacaoAbelha, ScoreSpec.score, ScoreSpec.vegetationFactor,
    ScoreSpec.temperatureFactor, ScoreSpec.seasonalityFactor, ScoreSpec.northern,
    ScoreSpec.northTable, ScoreSpec.southTable, ScoreSpec.in_closed,
    ScoreSpec.in_open, JS.geb, JS.gtb.
  cbv zeta. rewrite !Z.geb_leb.
  destruct (20 <=? x) eqn:H20, (x <=? 32) eqn:H32; cbn [andb negb];
    destruct (15 <? x), (x <? 38); reflexivity.
Qed.

Lemma Prim2SF_zero : Prim2SF 0 = S754_zero false.
Proof. reflexivity. Qed.

(** On doubles, [latitude <= 0] excludes [latitude > 0]. *)
Lemma leb_zero_not_gtb (x : float) : (x <=? 0) = true -> (x >? 0) = false.
Proof.
  unfold JS.gtb. rewrite leb_spec, ltb_spec, Prim2SF_zero.
  destruct (Prim2SF x) as [s|s| |s m e]; cbn; try destruct s; congruence.
Qed.

(** Two doubles that a comparison tells apart are different. *)
Lemma float_neq (x y : float) : (x =? y) = false -> (x =? x) = true -> x <> y.
Proof. intros Hxy Hxx E. rewrite <- E in Hxy. congruence. Qed.

(** C1: for a numeric temperature the score is the product of the three
    factors, with vegetation factor 1.0 or 0.05 (never zero) and temperature
    factor 1.0 on [20,32], 0.5 on the rest of (15,38) and 0.0 elsewhere; for
    a null or absent temperature it is 0; and it always lies in [0,1]. *)
Theorem score_product_and_range (now : Date) (t : float) (any : JS.value)
  (v : bool) (latitude : float) :
  calcularPontuacaoAbelha now (JS.Num t) v latitude =
    ScoreSpec.vegetationFactor v * ScoreSpec.temperatureFactor t *
    ScoreSpec.seasonalityFactor (getMonth now) latitude
  /\ ScoreSpec.vegetationFactor v = (if v then 1.0 else 0.05)
  /\ (ScoreSpec.vegetationFactor v =? 0) = false
  /\ ScoreSpec.temperatureFactor t =
       (if (20 <=? t) && (t <=? 32) then 1.0
        else if (15 <? t) && (t <? 38) then 0.5 else 0.0)
  /\ calcularPontuacaoAbelha now JS.Null v latitude = 0
  /\ calcularPontuacaoAbelha now JS.Undefined v latitude = 0
  /\ ScoreSpec.in_unit (calcularPontuacaoAbelha now any v latitude) = true.
Proof.
  repeat split.
  - apply calcularPontuacaoAbelha_refines.
  - destruct v; reflexivity.
  - unfold ScoreSpec.temperatureFactor, ScoreSpec.in_closed, ScoreSpec.in_open.
    destruct ((20 <=? t) && (t <=? 32)); cbn [negb]; [reflexivity|].
    now rewrite andb_true_r.
  - rewrite calcularPontuacaoAbelha_refines.
    destruct any as [| |x]; try reflexivity.
    unfold ScoreSpec.score, ScoreSpec.vegetationFactor, ScoreSpec.temperatureFactor,
      ScoreSpec.seasonalityFactor, ScoreSpec.northTable, ScoreSpec.southTable.
    destruct v, (ScoreSpec.in_closed 20 32 x), (ScoreSpec.in_open 15 38 x),
      (ScoreSpec.northern latitude); cbn [andb negb];
      split_bools; reflexivity.
Qed.

Lemma northTable_cases (m : Z) :
  ((2 <= m <= 7)%Z -> ScoreSpec.northTable m = 1.0) /\
  ((m = 8 \/ m = 9)%Z -> ScoreSpec.northTable m = 0.5) /\
  ((m < 2 \/ 9 < m)%Z -> ScoreSpec.northTable m = 0.1).
Proof.
  unfold ScoreSpec.northTable.
  destruct (Z.leb_spec 2 m), (Z.leb_spec m 7), (Z.eqb_spec m 8), (Z.eqb_spec m 9);
    cbn [andb orb]; repeat split; intros; first [reflexivity | lia].
Qed.

Lemma southTable_cases (m : Z) :
  ((8 <= m \/ m <= 1)%Z -> ScoreSpec.southTable m = 1.0) /\
  ((m = 2 \/ m = 3)%Z -> ScoreSpec.southTable m = 0.5) /\
  ((4 <= m <= 7)%Z -> ScoreSpec.southTable m = 0.1).
Proof.
  unfold ScoreSpec.southTable.
  destruct (Z.leb_spec 8 m), (Z.leb_spec m 1), (Z.eqb_spec m 2), (Z.eqb_spec m 3);
    cbn [andb orb]; repeat split; intros; first [reflexivity | lia].
Qed.

(** C2: the seasonality factor the score is multiplied by follows the
    Northern table when [latitude > 0] and the Southern table otherwise
    (in particular when [latitude <= 0]); in month 9 latitude +10 gives 0.5
    and latitude -10 gives 1.0. *)
Theorem seasonality_by_hemisphere (now : Date) (t : float) (v : bool)
  (latitude : float) :
  let m := getMonth now in
  let s := ScoreSpec.seasonalityFactor m latitude in
  calcularPontuacaoAbelha now (JS.Num t) v latitude =
    ScoreSpec.vegetationFactor v * ScoreSpec.temperatureFactor t * s
  /\ calcularPontuacaoAbelha now (JS.Num 25) true latitude = s
  /\ ((latitude >? 0) = true ->
        ((2 <= m <= 7)%Z -> s = 1.0) /\
        ((m = 8 \/ m = 9)%Z -> s = 0.5) /\
        ((m < 2 \/ 9 < m)%Z -> s = 0.1))
  /\ ((latitude >? 0) = false ->
        ((8 <= m \/ m <= 1)%Z -> s = 1.0) /\
        ((m = 2 \/ m = 3)%Z -> s = 0.5) /\
        ((4 <= m <= 7)%Z -> s = 0.1))
  /\ ((latitude <=? 0) = true -> (latitude >? 0) = false)
  /\ (m = 9%Z ->
        calcularPontuacaoAbelha now (JS.Num t) v 10 =
          ScoreSpec.vegetationFactor v * ScoreSpec.temperatureFactor t * 0.5 /\
        calcularPontuacaoAbelha now (JS.Num t) v (-10) =
          ScoreSpec.vegetationFactor v * ScoreSpec.temperatureFactor t * 1.0).
Proof.
  cbv zeta.
  split; [apply calcularPontuacaoAbelha_refines|].
  split.
  { rewrite calcularPontuacaoAbelha_refines.
    unfold ScoreSpec.score, ScoreSpec.seasonalityFactor, ScoreSpec.northTable,
      ScoreSpec.southTable.
    split_bools; reflexivity. }
  unfold ScoreSpec.seasonalityFactor, ScoreSpec.northern, JS.gtb.
  split; [intros Hlat; rewrite Hlat; apply northTable_cases|].
  split; [intros Hlat; rewrite Hlat; apply southTable_cases|].
  split; [apply leb_zero_not_gtb|].
  intros Hm.
  split; rewrite calcularPontuacaoAbelha_refines, Hm; reflexivity.
Qed.

(** C6 as stated fails: the scorer reads the month from the system clock,
    so two calls with the same temperature, vegetation flag and latitude
    return different weights in October and in January. *)
Lemma score_depends_on_clock :
  ~ (forall (now1 now2 : Date) (t : JS.value) (v : bool) (latitude : float),
       calcularPontuacaoAbelha now1 t v latitude =
       calcularPontuacaoAbelha now2 t v latitude).
Proof.
  intros H.
  specialize (H (mkDate 2025 9 15) (mkDate 2026 0 15) (JS.Num 25) true 10).
  revert H. apply float_neq; reflexivity.
Qed.

(** C6, amended: the weight is a function of the temperature, the
    vegetation flag, the latitude and the month the clock shows at the
    call; two calls that agree on these four return the same weight. *)
Theorem score_deterministic_given_month (now1 now2 : Date) (t : JS.value)
  (v : bool) (latitude : float) :
  getMonth now1 = getMonth now2 ->
  calcularPontuacaoAbelha now1 t v latitude =
  calcularPontuacaoAbelha now2 t v latitude.
Proof.
  intros Hm. rewrite !calcularPontuacaoAbelha_refines, Hm. reflexivity.
Qed.

Lemma score_deterministic_given_month_witness :
  getMonth (mkDate 2025 9 1) = getMonth (mkDate 2031 9 28) /\
  calcularPontuacaoAbelha (mkDate 2025 9 1) (JS.Num 25) true 10 =
  calcularPontuacaoAbelha (mkDate 2031 9 28) (JS.Num 25) true 10.
Proof.
  split; [reflexivity|].
  apply (score_deterministic_given_month (mkDate 2025 9 1) (mkDate 2031 9 28)).
  reflexivity.
Defined.

(** ** The grid *)

Lemma fold_left_append {A B : Type} (g : B -> list A) (l : list B) (s : list A) :
  fold_left (fun acc i => acc ++ g i) l s = s ++ flat_map g l.
Proof.
  revert s. induction l as [|x l IH]; intros s; cbn.
  - now rewrite app_nil_r.
  - now rewrite IH, app_assoc.
Qed.

Lemma for_upto_push {A : Type} (n : nat) (f : nat -> A) (acc : list A) :
  for_upto n (fun j a => push a (f j)) acc = acc ++ map f (seq 0 n).
Proof.
  unfold for_upto, push.
  rewrite (fold_left_append (fun j => [f j])).
  f_equal.
Qed.

Lemma fold_left_pointwise {A B : Type} (f g : A -> B -> A) (l : list B) (s : A) :
  (forall a x, f a x = g a x) -> fold_left f l s = fold_left g l s.
Proof.
  intros H. revert s. induction l as [|x l IH]; intros s; cbn; [reflexivity|].
  now rewrite H, IH.
Qed.

(** The two nested loops build the rows one after the other. *)
Lemma gridLoop_rows (b : BoundingBox) (N : nat) :
  gridLoop b N = flat_map (fun i => map (pointAt b N i) (seq 0 N)) (seq 0 N).
Proof.
  unfold gridLoop, for_upto at 1.
  rewrite (fold_left_pointwise _
             (fun acc i => acc ++ map (pointAt b N i) (seq 0 N))).
  - apply (fold_left_append (fun i => map (pointAt b N i) (seq 0 N))).
  - intros acc i. apply for_upto_push.
Qed.

Local Close Scope float_scope.

Lemma length_rows {A : Type} (row : nat -> list A) (N : nat) (l : list nat) :
  (forall i, List.length (row i) = N) ->
  List.length (flat_map row l) = List.length l * N.
Proof.
  intros H. induction l as [|x l IH]; cbn; [reflexivity|].
  now rewrite length_app, H, IH.
Qed.

Lemma nth_error_rows {A : Type} (row : nat -> list A) (N : nat) (l : list nat)
  (i j : nat) :
  (forall i, List.length (row i) = N) -> j < N ->
  nth_error (flat_map row l) (i * N + j) =
  match nth_error l i with
  | Some x => nth_error (row x) j
  | None => None
  end.
Proof.
  intros H Hj. revert i. induction l as [|x l IH]; intros i; cbn.
  - destruct i; cbn; now rewrite ?nth_error_nil.
  - destruct i as [|i]; cbn.
    + apply nth_error_app1. now rewrite H.
    + rewrite nth_error_app2 by (rewrite H; lia).
      rewrite H. replace (N + i * N + j - N) with (i * N + j) by lia. apply IH.
Qed.

Lemma gridLoop_length (b : BoundingBox) (N : nat) :
  List.length (gridLoop b N) = N * N.
Proof.
  rewrite gridLoop_rows, (length_rows _ N), length_seq; [reflexivity|].
  intros i. now rewrite length_map, length_seq.
Qed.

(** Row-major order: index [i * N + j] holds point [(i, j)]. *)
Lemma gridLoop_nth (b : BoundingBox) (N i j : nat) :
  i < N -> j < N ->
  nth_error (gridLoop b N) (i * N + j) = Some (pointAt b N i j).
Proof.
  intros Hi Hj.
  rewrite gridLoop_rows, (nth_error_rows _ N) by
    (try (intros k; now rewrite length_map, length_seq); assumption).
  rewrite nth_error_seq. destruct (Nat.ltb_spec i N); [|lia]. cbn.
  rewrite nth_error_map, nth_error_seq.
  destruct (Nat.ltb_spec j N); [|lia]. reflexivity.
Qed.

Local Open Scope float_scope.

(** *** The corners, in the arithmetic of doubles *)

Lemma is_finite_cases (x : float) :
  is_finite x = true ->
  (exists s, Prim2SF x = S754_zero s) \/ (exists s m e, Prim2SF x = S754_finite s m e).
Proof.
  unfold is_finite, is_nan, is_infinity.
  rewrite !eqb_spec, abs_spec.
  replace (Prim2SF infinity) with (S754_infinity false) by reflexivity.
  destruct (Prim2SF x) as [s|s| |s m e]; cbn.
  - intros _. left. now exists s.
  - destruct s; cbn; discriminate.
  - discriminate.
  - intros _. right. now exists s, m, e.
Qed.

Lemma positive_cases (c : float) :
  (0 <? c) = true ->
  Prim2SF c = S754_infinity false \/ (exists m e, Prim2SF c = S754_finite false m e).
Proof.
  rewrite ltb_spec, Prim2SF_zero.
  destruct (Prim2SF c) as [s|s| |s m e]; cbn; try destruct s; try discriminate.
  - now left.
  - intros _. right. now exists m, e.
Qed.

Lemma SFcompare_refl_finite (s : bool) (m : positive) (e : Z) :
  SFcompare (S754_finite s m e) (S754_finite s m e) = Some Eq.
Proof.
  cbn. rewrite Z.compare_refl, Pos.compare_cont_refl. now destruct s.
Qed.

(** Adding [(0 * d) / c] to a finite [s] gives back [s] (up to the sign of
    zero), for a finite [d] and a positive [c]. *)
Lemma add_zero_fraction (s d c : float) :
  is_finite s = true -> is_finite d = true -> (0 <? c) = true ->
  (s + 0 * d / c =? s) = true.
Proof.
  intros Hs Hd Hc.
  rewrite eqb_spec, add_spec, div_spec, mul_spec, Prim2SF_zero.
  assert (Hz : exists z, SF64div (SF64mul (S754_zero false) (Prim2SF d)) (Prim2SF c)
                         = S754_zero z).
  { destruct (is_finite_cases d Hd) as [[sd ->]|(sd & md & ed & ->)];
      destruct (positive_cases c Hc) as [->|(mc & ec & ->)]; cbn; eauto. }
  destruct Hz as [z ->].
  destruct (is_finite_cases s Hs) as [[ss ->]|(ss & ms & es & ->)].
  - destruct ss, z; reflexivity.
  - unfold SF64add, SFadd, SFeqb. now rewrite SFcompare_refl_finite.
Qed.

Lemma divisor_positive_from_spec (fuel : nat) (z k : Z) :
  divisor_positive_from fuel z = true ->
  (z <= k < z + Z.of_nat fuel)%Z -> (0 <? of_Z k - 1) = true.
Proof.
  revert z. induction fuel as [|fuel IH]; intros z H Hk; [lia|].
  cbn [divisor_positive_from] in H. apply andb_true_iff in H as [H0 H1].
  destruct (Z.eq_dec k z) as [->|Hne]; [exact H0|].
  apply (IH (z + 1)%Z); [exact H1|lia].
Qed.

Lemma divisor_positive_checked : divisor_positive_from 65534 2 = true.
Proof. vm_compute. reflexivity. Qed.

(** For every resolution from 2 to [maxResolution] the divisor [N - 1] is
    a positive double. *)
Lemma divisor_positive (N : nat) :
  (2 <= N <= maxResolution)%nat -> (0 <? JS.of_nat N - 1) = true.
Proof.
  intros HN. unfold JS.of_nat.
  apply (divisor_positive_from_spec 65534 2 (Z.of_nat N) divisor_positive_checked).
  assert (Hmax : Z.of_nat maxResolution = 65535%Z) by (vm_compute; reflexivity).
  assert (Hfuel : Z.of_nat 65534 = 65534%Z) by (vm_compute; reflexivity).
  lia.
Qed.

Lemma gridLoop_first (b : BoundingBox) (N : nat) :
  (0 < N)%nat -> nth_error (gridLoop b N) 0 = Some (pointAt b N 0 0).
Proof. intros HN. apply (gridLoop_nth b N 0 0 HN HN). Qed.

Lemma gridLoop_last (b : BoundingBox) (N : nat) :
  (0 < N)%nat ->
  nth_error (gridLoop b N) (N * N - 1) = Some (pointAt b N (N - 1) (N - 1)).
Proof.
  intros HN.
  replace (N * N - 1)%nat with ((N - 1) * N + (N - 1))%nat by nia.
  apply gridLoop_nth; lia.
Qed.

(** The south-west corner comes out as [(south, west)]. *)
Lemma pointAt_south_west (b : BoundingBox) (N : nat) :
  (2 <= N <= maxResolution)%nat ->
  is_finite (south b) = true -> is_finite (west b) = true ->
  is_finite (north b - south b) = true -> is_finite (east b - west b) = true ->
  same_point (pointAt b N 0 0) (mkPoint (south b) (west b)) = true.
Proof.
  intros HN Hs Hw Hns Hew. unfold same_point, pointAt. cbn [lat lon].
  replace (JS.of_nat 0) with 0 by reflexivity.
  rewrite !add_zero_fraction; auto using divisor_positive.
Qed.

(** C3 as stated fails: around the centre (-0.2, 10), with the handlers'
    buffer 0.5 and resolution 15, the last grid point is not the north-east
    corner of the box: [-0.7 + 14 * 1 / 14] is 0.30000000000000004 while
    [-0.2 + 0.5] is 0.3. *)
Lemma north_east_corner_not_exact :
  let b := boundingBox (-0.2) 10 0.5 in
  exists p,
    nth_error (generateGrid (-0.2) 10 0.5 15) (14 * 15 + 14) = Some p /\
    (south b =? -0.7) = true /\ (north b =? 0.3) = true /\
    (north b - south b =? 1) = true /\
    (lat p =? 0.30000000000000004) = true /\
    (lat p =? north b) = false /\
    p <> mkPoint (north b) (east b).
Proof.
  eexists. split; [vm_compute; reflexivity|].
  repeat split; try (vm_compute; reflexivity).
  intros E. apply (f_equal lat) in E. revert E.
  apply float_neq; vm_compute; reflexivity.
Qed.

(** C3, amended: for every centre, buffer and resolution N >= 2 the grid
    has exactly N * N points in row-major order, point (i, j) having
    lat = south + i * (north - south) / (N - 1) and
    lon = west + j * (east - west) / (N - 1) computed in doubles, over the
    box centre -/+ buffer; equal inputs give equal grids; the point (0, 0)
    equals (south, west) when N is at most 65535 and the box's south, west
    and extents are finite; the point (N-1, N-1) is the last one and is the
    formula's value there. *)
Theorem grid_row_major (lat lon buffer : float) (N : nat) :
  (2 <= N)%nat ->
  let b := boundingBox lat lon buffer in
  let g := generateGrid lat lon buffer N in
  (south b = lat - buffer /\ west b = lon - buffer /\
   north b = lat + buffer /\ east b = lon + buffer)
  /\ List.length g = (N * N)%nat
  /\ (forall i j, (i < N)%nat -> (j < N)%nat ->
        nth_error g (i * N + j) = Some (pointAt b N i j))
  /\ (forall lat' lon' buffer' N',
        lat' = lat -> lon' = lon -> buffer' = buffer -> N' = N ->
        generateGrid lat' lon' buffer' N' = g)
  /\ ((N <= maxResolution)%nat ->
      is_finite (south b) = true -> is_finite (west b) = true ->
      is_finite (north b - south b) = true ->
      is_finite (east b - west b) = true ->
      exists p, nth_error g 0 = Some p /\
                same_point p (mkPoint (south b) (west b)) = true)
  /\ nth_error g (N * N - 1) = Some (pointAt b N (N - 1) (N - 1)).
Proof.
  intros HN. cbv zeta. unfold generateGrid.
  split; [repeat split|].
  split; [apply gridLoop_length|].
  split; [intros i j; apply gridLoop_nth|].
  split; [intros ? ? ? ? -> -> -> ->; reflexivity|].
  split.
  - intros Hmax Hs Hw Hns Hew. exists (pointAt (boundingBox lat lon buffer) N 0 0).
    split; [apply gridLoop_first; lia|].
    apply pointAt_south_west; auto.
  - apply gridLoop_last. lia.
Qed.

Lemma grid_row_major_witness :
  (2 <= 3)%nat /\
  List.length (generateGrid 40 (-3) 0.5 3) = 9%nat /\
  nth_error (generateGrid 40 (-3) 0.5 3) 5 = Some (mkPoint 40 (-2.5)).
Proof.
  assert (H : (2 <= 3)%nat) by lia.
  split; [exact H|].
  split.
  - exact (proj1 (proj2 (grid_row_major 40 (-3) 0.5 3 H))).
  - exact (proj1 (proj2 (proj2 (grid_row_major 40 (-3) 0.5 3 H))) 1%nat 2%nat
             ltac:(lia) ltac:(lia)).
Defined.

(** ** The handlers *)

Section HandlerFacts.

Context {World : Type}.
Variable axios_get : Url -> option Z -> World -> (Exn + Data) * World.
Variable setTimeout : Z -> World -> World.
Variable clock : World -> nat -> Date.
Variable pointInPolygon : float * float -> Polygon -> bool.

(** *** Sequential temperature fetch *)

Lemma fetchTemperatures_step (point : GridPoint) (rest : list GridPoint)
  (acc : list JS.value) (s : State World) :
  fetchTemperatures axios_get setTimeout (point :: rest) acc s =
  fetchTemperatures axios_get setTimeout rest
    (push acc (recover (fst (fetchOne axios_get point s))))
    (snd (sleep setTimeout DELAY_MS (snd (fetchOne axios_get point s)))).
Proof.
  cbn [fetchTemperatures]. unfold bind, try_catch, fetchOne, ret, sleep, bind.
  destruct (get axios_get _ _ s) as [[e|response] s1]; [reflexivity|].
  destruct (pointTemperature response s1) as [[e|t] s1']; reflexivity.
Qed.

Lemma pointOutcomes_step (point : GridPoint) (rest : list GridPoint)
  (s : State World) :
  pointOutcomes axios_get setTimeout (point :: rest) s =
  let s2 := snd (sleep setTimeout DELAY_MS (snd (fetchOne axios_get point s))) in
  (fst (fetchOne axios_get point s) ::
     fst (pointOutcomes axios_get setTimeout rest s2),
   snd (pointOutcomes axios_get setTimeout rest s2)).
Proof.
  cbn [pointOutcomes]. cbv zeta.
  destruct (fetchOne axios_get point s) as [r s1]. cbn [fst snd].
  destruct (sleep setTimeout DELAY_MS s1) as [u s2]. cbn [fst snd].
  destruct (pointOutcomes axios_get setTimeout rest s2) as [os s3]. reflexivity.
Qed.

Lemma fetchTemperatures_outcomes (gridPoints : list GridPoint)
  (acc : list JS.value) (s : State World) :
  fetchTemperatures axios_get setTimeout gridPoints acc s =
  (inr (acc ++ map recover (fst (pointOutcomes axios_get setTimeout gridPoints s))),
   snd (pointOutcomes axios_get setTimeout gridPoints s)).
Proof.
  revert acc s. induction gridPoints as [|point rest IH]; intros acc s.
  - cbn. now rewrite app_nil_r.
  - rewrite fetchTemperatures_step, pointOutcomes_step, IH. cbv zeta.
    cbn [fst snd map]. unfold push. now rewrite <- app_assoc.
Qed.

Lemma pointOutcomes_length (gridPoints : list GridPoint) (s : State World) :
  List.length (fst (pointOutcomes axios_get setTimeout gridPoints s)) =
  List.length gridPoints.
Proof.
  revert s. induction gridPoints as [|point rest IH]; intros s; [reflexivity|].
  rewrite pointOutcomes_step. cbv zeta. cbn [fst List.length]. now rewrite IH.
Qed.

Lemma fetchOne_answer (point : GridPoint) (s : State World) :
  fetchOne axios_get point s =
  (match fst (axios_get (pointUrl point) (Some 15000%Z) (world s)) with
   | inl e => inl e
   | inr (ForecastObject (Current t)) => inr t
   | inr _ => inl TypeError
   end,
   mkState (snd (axios_get (pointUrl point) (Some 15000%Z) (world s)))
           (requests s ++ [pointUrl point])).
Proof.
  unfold fetchOne, bind, get, pointUrl, push.
  destruct (axios_get _ _ (world s)) as [[e|data] w]; [reflexivity|].
  destruct data as [| |[|t]| |]; reflexivity.
Qed.

Lemma fetchTemperatures_answers (gridPoints : list GridPoint)
  (acc : list JS.value) (s : State World) :
  fst (fetchTemperatures axios_get setTimeout gridPoints acc s) =
  inr (acc ++ map slotOf (upstreamAnswers axios_get setTimeout gridPoints (world s))).
Proof.
  revert acc s. induction gridPoints as [|point rest IH]; intros acc s.
  - cbn. now rewrite app_nil_r.
  - rewrite fetchTemperatures_step, IH, fetchOne_answer.
    cbn [upstreamAnswers fst snd]. unfold sleep, pointUrl, DELAY_MS, push.
    cbn [snd world].
    destruct (axios_get _ _ (world s)) as [[e|data] w1]; cbn [fst snd map slotOf recover];
      [now rewrite <- app_assoc|].
    destruct data as [| |[|t]| |]; cbn [recover slotOf]; now rewrite <- app_assoc.
Qed.

Lemma upstreamAnswers_length (gridPoints : list GridPoint) (w : World) :
  List.length (upstreamAnswers axios_get setTimeout gridPoints w) =
  List.length gridPoints.
Proof.
  revert w. induction gridPoints as [|point rest IH]; intros w; [reflexivity|].
  cbn [upstreamAnswers]. destruct (axios_get _ _ w) as [answer w1].
  cbn [List.length]. now rewrite IH.
Qed.

(** C4: the sequential fetch never throws; it returns one temperature per
    grid point, in grid order. Slot [k] is decided by what the network
    answered to the request for point [k]: the fallback 25 when the
    request was rejected (a timeout, HTTP 429, any error) or its body has
    no readable [current.temperature_2m], and the temperature of the body
    otherwise. The first request is put to the world the loop starts in,
    each later one to the world the previous request and pause left. *)
Theorem sequential_fetch_aligned (gridPoints : list GridPoint) (s : State World) :
  let answers := upstreamAnswers axios_get setTimeout gridPoints (world s) in
  exists temperatures s',
    fetchTemperatures axios_get setTimeout gridPoints [] s = (inr temperatures, s')
    /\ List.length temperatures = List.length gridPoints
    /\ List.length answers = List.length gridPoints
    /\ (forall k e, nth_error answers k = Some (inl e) ->
          nth_error temperatures k = Some (JS.Num 25))
    /\ (forall k t, nth_error answers k = Some (inr (ForecastObject (Current t))) ->
          nth_error temperatures k = Some t)
    /\ (forall k data, nth_error answers k = Some (inr data) ->
          (forall t, data <> ForecastObject (Current t)) ->
          nth_error temperatures k = Some (JS.Num 25))
    /\ (forall point rest, gridPoints = point :: rest ->
          let first :=
            axios_get
              (ForecastUrl [toFixed 4 (lat point)] [toFixed 4 (lon point)] true)
              (Some 15000%Z) (world s) in
          answers =
          fst first ::
          upstreamAnswers axios_get setTimeout rest (setTimeout 1500%Z (snd first))).
Proof.
  cbv zeta.
  exists (map slotOf (upstreamAnswers axios_get setTimeout gridPoints (world s))),
         (snd (fetchTemperatures axios_get setTimeout gridPoints [] s)).
  split.
  { rewrite (surjective_pairing (fetchTemperatures _ _ _ _ _)) at 1.
    now rewrite fetchTemperatures_answers. }
  rewrite length_map, upstreamAnswers_length.
  split; [reflexivity|]. split; [reflexivity|].
  split; [intros k e Hk; now rewrite nth_error_map, Hk|].
  split; [intros k t Hk; now rewrite nth_error_map, Hk|].
  split.
  - intros k data Hk Hbad. rewrite nth_error_map, Hk. cbn [option_map]. f_equal.
    destruct data as [| |[|t]| |]; try reflexivity.
    exfalso. now apply (Hbad t).
  - intros point rest ->. cbn [upstreamAnswers].
    destruct (axios_get _ _ (world s)) as [answer w1]. reflexivity.
Qed.

(** *** Observation fusion *)

(** C9: an observation is attached exactly when some observation lies
    within 0.001 of the point in both coordinates; at most one is attached,
    the first such in the list; with none, the result is null, and whether
    the point is returned does not depend on the observations. *)
Theorem attachNearest_first_match (point : GridPoint) (globeData : list Observation) :
  (forall g, near point g =
     (abs (at_index (coordinates g) 1 - lat point) <? 0.001) &&
     (abs (at_index (coordinates g) 0 - lon point) <? 0.001))
  /\ ((exists g, attachNearest point globeData = Some g) <->
      (exists g, In g globeData /\ near point g = true))
  /\ (forall g, attachNearest point globeData = Some g ->
        near point g = true /\
        exists before after, globeData = before ++ g :: after /\
          forall x, In x before -> near point x = false)
  /\ (attachNearest point globeData = None <->
      forall g, In g globeData -> near point g = false)
  /\ (forall w polys temperatures index r,
        scorePoint clock pointInPolygon w polys temperatures globeData point index
          = Some r ->
        globe r = attachNearest point globeData)
  /\ (forall w polys temperatures index,
        scorePoint clock pointInPolygon w polys temperatures globeData point index
          = None <->
        scorePoint clock pointInPolygon w polys temperatures [] point index = None).
Proof.
  unfold attachNearest.
  assert (Hfirst : forall g, find (near point) globeData = Some g ->
            near point g = true /\
            exists before after, globeData = before ++ g :: after /\
              forall x, In x before -> near point x = false).
  { induction globeData as [|x l IH]; intros g; cbn; [discriminate|].
    destruct (near point x) eqn:Hx.
    - intros [= <-]. split; [exact Hx|]. exists [], l. split; [reflexivity|].
      intros y [].
    - intros Hg. destruct (IH g Hg) as (Hn & before & after & -> & Hb).
      split; [exact Hn|]. exists (x :: before), after. split; [reflexivity|].
      intros y [<-|Hy]; [exact Hx|now apply Hb]. }
  assert (Hnone : find (near point) globeData = None <->
            forall g, In g globeData -> near point g = false).
  { split.
    - intros H g Hg. exact (find_none _ _ H g Hg).
    - intros H. destruct (find (near point) globeData) as [g|] eqn:Hf; [|reflexivity].
      apply find_some in Hf as [Hin Hn]. rewrite (H g Hin) in Hn. discriminate. }
  split; [reflexivity|].
  split.
  { split.
    - intros [g Hg]. exists g. now apply find_some in Hg.
    - intros (g & Hin & Hn).
      destruct (find (near point) globeData) as [g'|] eqn:Hf; [now exists g'|].
      rewrite (proj1 Hnone eq_refl g Hin) in Hn. discriminate. }
  split; [exact Hfirst|].
  split; [exact Hnone|].
  split.
  - intros w polys temperatures index r. unfold scorePoint. cbv zeta.
    destruct (negb _); [discriminate|].
    destruct (_ <? 0.05); [discriminate|].
    intros [= <-]. reflexivity.
  - intros w polys temperatures index. unfold scorePoint. cbv zeta.
    destruct (negb _); [tauto|].
    destruct (_ <? 0.05); [tauto|].
    split; discriminate.
Qed.

(** *** Scoring and filtering in the extended variant *)

(** On the values a score takes, [not (score < 0.05)] is [score >= 0.05]. *)
Lemma score_threshold (now : Date) (t : JS.value) (v : bool) (latitude : float) :
  (calcularPontuacaoAbelha now t v latitude <? 0.05) =
  negb (calcularPontuacaoAbelha now t v latitude >=? 0.05).
Proof.
  rewrite calcularPontuacaoAbelha_refines. unfold JS.geb.
  destruct t as [| |x]; try reflexivity.
  unfold ScoreSpec.score, ScoreSpec.vegetationFactor, ScoreSpec.temperatureFactor,
    ScoreSpec.seasonalityFactor, ScoreSpec.northTable, ScoreSpec.southTable.
  destruct v, (ScoreSpec.in_closed 20 32 x), (ScoreSpec.in_open 15 38 x),
    (ScoreSpec.northern latitude); cbn [andb negb];
    split_bools; reflexivity.
Qed.

(** A vegetated point at 25 degrees scores the seasonality factor, which is
    never below the threshold. *)
Lemma score_at_fallback_kept (now : Date) (latitude : float) :
  (calcularPontuacaoAbelha now (JS.Num 25) true latitude <? 0.05) = false.
Proof.
  rewrite calcularPontuacaoAbelha_refines.
  unfold ScoreSpec.score, ScoreSpec.seasonalityFactor, ScoreSpec.northTable,
    ScoreSpec.southTable.
  split_bools; reflexivity.
Qed.

Lemma or_else_falsy (t d : JS.value) : JS.truthy t = false -> JS.or_else t d = d.
Proof. unfold JS.or_else. now intros ->. Qed.

(** C10: in the extended variant a falsy temperature slot (a fetched 0
    among them) is replaced by 25 before scoring: the returned point, when
    the point is vegetated, carries temperature 25 and the weight computed
    from 25 (rendered to three decimals), and it is never dropped by the
    threshold. *)
Theorem falsy_temperature_replaced (w : World) (polys : list Polygon)
  (temperatures : list JS.value) (globeData : list Observation)
  (point : GridPoint) (index : nat) :
  JS.truthy (temperature_at temperatures index) = false ->
  let beeScore := calcularPontuacaoAbelha (clock w index) (JS.Num 25) true (lat point) in
  scorePoint clock pointInPolygon w polys temperatures globeData point index =
    (if hasVegetation_at pointInPolygon polys point
     then Some {| latitude := lat point;
                  longitude := lon point;
                  weight := parseFloat (toFixed 3 beeScore);
                  temperature := JS.Num 25;
                  globe := attachNearest point globeData |}
     else None)
  /\ (forall r,
        scorePoint clock pointInPolygon w polys temperatures globeData point index
          = Some r ->
        temperature r = JS.Num 25 /\ weight r = parseFloat (toFixed 3 beeScore))
  /\ JS.truthy (JS.Num 0) = false
  /\ calcularPontuacaoAbelha (clock w index) (JS.Num 0) true (lat point) = 0.
Proof.
  intros Hfalsy. cbv zeta.
  assert (Heq : scorePoint clock pointInPolygon w polys temperatures globeData
                  point index =
                (if hasVegetation_at pointInPolygon polys point
                 then Some {| latitude := lat point;
                              longitude := lon point;
                              weight := parseFloat (toFixed 3
                                (calcularPontuacaoAbelha (clock w index) (JS.Num 25)
                                   true (lat point)));
                              temperature := JS.Num 25;
                              globe := attachNearest point globeData |}
                 else None)).
  { unfold scorePoint. cbv zeta. rewrite (or_else_falsy _ _ Hfalsy).
    destruct (hasVegetation_at pointInPolygon polys point); cbn [negb]; [|reflexivity].
    now rewrite score_at_fallback_kept. }
  split; [exact Heq|].
  split.
  - intros r. rewrite Heq.
    destruct (hasVegetation_at pointInPolygon polys point); [|discriminate].
    intros [= <-]. split; reflexivity.
  - split; [reflexivity|].
    rewrite calcularPontuacaoAbelha_refines.
    unfold ScoreSpec.score, ScoreSpec.seasonalityFactor, ScoreSpec.northTable,
      ScoreSpec.southTable.
    split_bools; reflexivity.
Qed.

Lemma mapi_from_indexed {A B : Type} (f : A -> nat -> B) (a : list A) (start : nat) :
  mapi_from start f a =
  map (fun xk => f (fst xk) (snd xk)) (combine a (seq start (List.length a))).
Proof.
  revert start. induction a as [|x a IH]; intros start; cbn; [reflexivity|].
  now rewrite IH.
Qed.

Lemma filter_Boolean_guarded {A B : Type} (keep : A -> bool) (h : A -> B) (a : list A) :
  filter_Boolean (map (fun x => if keep x then Some (h x) else None) a) =
  map h (filter keep a).
Proof.
  induction a as [|x a IH]; cbn; [reflexivity|].
  destruct (keep x); cbn; now rewrite IH.
Qed.

Lemma scorePoint_guarded (w : World) (polys : list Polygon)
  (temperatures : list JS.value) (globeData : list Observation)
  (p : GridPoint) (k : nat) :
  scorePoint clock pointInPolygon w polys temperatures globeData p k =
  if keptByPolicy clock pointInPolygon w polys temperatures (p, k)
  then Some (toScoredPoint clock w temperatures globeData (p, k))
  else None.
Proof.
  unfold scorePoint, keptByPolicy, toScoredPoint, extendedScore. cbv zeta. cbn [fst snd].
  destruct (hasVegetation_at pointInPolygon polys p); cbn [negb andb]; [|reflexivity].
  rewrite score_threshold.
  destruct (calcularPontuacaoAbelha _ _ true (lat p) >=? 0.05); reflexivity.
Qed.

(** The extended result is the kept grid points, in grid order. *)
Lemma result_is_filter (w : World) (polys : list Polygon)
  (temperatures : list JS.value) (globeData : list Observation)
  (gridPoints : list GridPoint) :
  result clock pointInPolygon w polys temperatures globeData gridPoints =
  map (toScoredPoint clock w temperatures globeData)
      (filter (keptByPolicy clock pointInPolygon w polys temperatures) (indexed gridPoints)).
Proof.
  unfold result, mapi, indexed. rewrite mapi_from_indexed.
  rewrite <- filter_Boolean_guarded. f_equal. apply map_ext.
  intros [p k]. apply scorePoint_guarded.
Qed.

(** The basic result has one point per grid point, in grid order. *)
Lemma heatmapData_coordinates (w : World) (polys : list Polygon)
  (temperatures : list JS.value) (gridPoints : list GridPoint) :
  map (fun h => (hp_latitude h, hp_longitude h))
      (heatmapData clock pointInPolygon w polys temperatures gridPoints) =
  map (fun p => (lat p, lon p)) gridPoints.
Proof.
  unfold heatmapData, mapi. generalize 0%nat.
  induction gridPoints as [|p l IH]; intros start; cbn; [reflexivity|].
  now rewrite IH.
Qed.

(** *** Runs of the two handlers *)

Lemma fetchGlobeData_total (b : BoundingBox) (s : State World) :
  exists globeData s', fetchGlobeData axios_get b s = (inr globeData, s').
Proof.
  unfold fetchGlobeData, try_catch, bind, ret.
  destruct (get axios_get GlobeUrl _ s) as [[e|response] s1]; eauto.
Qed.

Lemma extendedBody_run (lat lon : float) (s : State World) :
  is_nan lat || is_nan lon = false ->
  extendedBody axios_get setTimeout clock pointInPolygon lat lon s =
  let bbox := boundingBox lat lon buffer in
  let grid := gridLoop bbox gridSize in
  match get axios_get (OverpassUrl bbox) (Some 25000%Z) s with
  | (inl e, s1) => (inl e, s1)
  | (inr (OsmJson elements), s1) =>
    let polys := map (fun el => map (fun n => (node_lon n, node_lat n)) el) elements in
    let run := pointOutcomes axios_get setTimeout grid s1 in
    match fetchGlobeData axios_get bbox (snd run) with
    | (inl e, s3) => (inl e, s3)
    | (inr globeData, s3) =>
      (inr (Status200 (result clock pointInPolygon (world s3) polys
                         (map recover (fst run)) globeData grid)), s3)
    end
  | (inr _, s1) => (inl TypeError, s1)
  end.
Proof.
  intros Hnan. unfold extendedBody. rewrite Hnan. cbv zeta. unfold bind at 1.
  destruct (get axios_get _ _ s) as [[e|data] s1]; [reflexivity|].
  destruct data; cbn [vegetationPolygons_of]; try reflexivity.
  unfold bind at 1. unfold ret at 1. unfold bind at 1.
  rewrite fetchTemperatures_outcomes. cbn [app]. unfold bind, ret.
  destruct (fetchGlobeData axios_get _ _) as [[e|g] s3]; reflexivity.
Qed.

Lemma read_entries_readable (entries : list Entry) (s : State World) :
  read_entries entries s =
  (match readable entries with Some ts => inr ts | None => inl TypeError end, s).
Proof.
  induction entries as [|[|t] rest IH]; cbn; try reflexivity.
  unfold bind at 1. unfold ret at 1. unfold bind. rewrite IH.
  destruct (readable rest); reflexivity.
Qed.

Lemma batchTemperatures_readable (data : Data) (s : State World) :
  batchTemperatures data s =
  (match batchEntries data with
   | Some entries =>
     match readable entries with Some ts => inr ts | None => inl TypeError end
   | None => inl TypeError
   end, s).
Proof.
  destruct data; cbn [batchTemperatures batchEntries]; try reflexivity;
    apply read_entries_readable.
Qed.

Lemma basicBody_run (qlat qlon : float) (s : State World) :
  is_nan qlat || is_nan qlon = false ->
  basicBody axios_get clock pointInPolygon qlat qlon s =
  let bbox := boundingBox qlat qlon buffer in
  let grid := gridLoop bbox gridSize in
  match get axios_get (OverpassUrl bbox) (Some 25000%Z) s with
  | (inl e, s1) => (inl e, s1)
  | (inr (OsmJson elements), s1) =>
    let polys := map (fun el => map (fun n => (node_lon n, node_lat n)) el) elements in
    match get axios_get (ForecastUrl (lat_params grid) (lon_params grid) false)
            None s1 with
    | (inl e, s2) => (inl e, s2)
    | (inr data, s2) =>
      match batchEntries data with
      | Some entries =>
        match readable entries with
        | Some ts =>
          (inr (Status200 (heatmapData clock pointInPolygon (world s2) polys ts grid)), s2)
        | None => (inl TypeError, s2)
        end
      | None => (inl TypeError, s2)
      end
    end
  | (inr _, s1) => (inl TypeError, s1)
  end.
Proof.
  intros Hnan. unfold basicBody. rewrite Hnan. cbv zeta. unfold bind at 1.
  destruct (get axios_get _ _ s) as [[e|data] s1]; [reflexivity|].
  destruct data; cbn [vegetationPolygons_of]; try reflexivity.
  unfold bind at 1. unfold ret at 1. unfold bind at 1.
  destruct (get axios_get _ _ s1) as [[e|data] s2]; [reflexivity|].
  unfold bind. rewrite batchTemperatures_readable.
  destruct (batchEntries data) as [entries|]; [|reflexivity].
  destruct (readable entries); reflexivity.
Qed.

Lemma beeMapExtended_ok_body (qlat qlon : float) (s s' : State World)
  (body : list ScoredPoint) :
  beeMapExtended axios_get setTimeout clock pointInPolygon qlat qlon s
    = (inr (Status200 body), s') ->
  exists polys temperatures globeData,
    List.length temperatures = (gridSize * gridSize)%nat /\
    body = result clock pointInPolygon (world s') polys temperatures globeData
             (gridLoop (boundingBox qlat qlon buffer) gridSize).
Proof.
  unfold beeMapExtended, try_catch.
  destruct (is_nan qlat || is_nan qlon) eqn:Hnan.
  - unfold extendedBody. rewrite Hnan. unfold ret. discriminate.
  - rewrite (extendedBody_run _ _ _ Hnan). cbv zeta.
    pose proof (gridLoop_length (boundingBox qlat qlon buffer) gridSize) as Hlen.
    set (grid := gridLoop _ _) in *. clearbody grid.
    destruct (get axios_get _ _ s) as [[e|data] s1]; [unfold ret; discriminate|].
    destruct data; try (unfold ret; discriminate).
    destruct (fetchGlobeData axios_get _ _) as [[e|g] s3]; [unfold ret; discriminate|].
    intros [= <- <-]. eexists _, _, g. split; cycle 1; [reflexivity|].
    now rewrite length_map, pointOutcomes_length.
Qed.

(** When Overpass answers with polygons, the extended handler answers 200:
    nothing after that point can fail the request. *)
Lemma beeMapExtended_succeeds (qlat qlon : float) (s : State World)
  (elements : list (list Node)) (w1 : World) :
  is_nan qlat || is_nan qlon = false ->
  axios_get (OverpassUrl (boundingBox qlat qlon buffer)) (Some 25000%Z) (world s)
    = (inr (OsmJson elements), w1) ->
  exists body s',
    beeMapExtended axios_get setTimeout clock pointInPolygon qlat qlon s
      = (inr (Status200 body), s').
Proof.
  intros Hnan Hosm. unfold beeMapExtended, try_catch.
  rewrite (extendedBody_run _ _ _ Hnan). cbv zeta.
  unfold get at 1. rewrite Hosm.
  destruct (fetchGlobeData_total (boundingBox qlat qlon buffer)
              (snd (pointOutcomes axios_get setTimeout
                      (gridLoop (boundingBox qlat qlon buffer) gridSize)
                      (mkState w1 (push (requests s)
                         (OverpassUrl (boundingBox qlat qlon buffer)))))))
    as (g & s3 & ->).
  eauto.
Qed.

Lemma heatmapData_length (w : World) (polys : list Polygon)
  (temperatures : list JS.value) (gridPoints : list GridPoint) :
  List.length (heatmapData clock pointInPolygon w polys temperatures gridPoints) =
  List.length gridPoints.
Proof.
  rewrite <- (length_map (fun h => (hp_latitude h, hp_longitude h))).
  now rewrite heatmapData_coordinates, length_map.
Qed.

Lemma beeMapBasic_ok_body (qlat qlon : float) (s s' : State World)
  (body : list HeatPoint) :
  beeMapBasic axios_get clock pointInPolygon qlat qlon s
    = (inr (Status200 body), s') ->
  exists polys temperatures,
    body = heatmapData clock pointInPolygon (world s') polys temperatures
             (gridLoop (boundingBox qlat qlon buffer) gridSize).
Proof.
  unfold beeMapBasic, try_catch.
  destruct (is_nan qlat || is_nan qlon) eqn:Hnan.
  - unfold basicBody. rewrite Hnan. unfold ret. discriminate.
  - rewrite (basicBody_run _ _ _ Hnan). cbv zeta.
    set (grid := gridLoop _ _) in *. clearbody grid.
    destruct (get axios_get _ _ s) as [[e|data] s1];
      [destruct e as [[]|]; unfold basicCatch, ret; discriminate|].
    destruct data; try (unfold basicCatch, ret; discriminate).
    destruct (get axios_get _ _ s1) as [[e|data] s2];
      [destruct e as [[]|]; unfold basicCatch, ret; discriminate|].
    destruct (batchEntries data) as [entries|]; [|unfold basicCatch, ret; discriminate].
    destruct (readable entries) as [ts|]; [|unfold basicCatch, ret; discriminate].
    intros [= <- <-]. eauto.
Qed.

(** C5: the extended variant returns exactly the grid points that lie in at
    least one vegetation polygon and score at least 0.05, in grid order; the
    basic variant returns every grid point, all 15 * 15 of them. *)
Theorem filtering_policies (w : World) (polys : list Polygon)
  (temperatures : list JS.value) (globeData : list Observation)
  (gridPoints : list GridPoint) (qlat qlon : float) (s : State World) :
  let coords := fun r : ScoredPoint => (latitude r, longitude r) in
  let coords' := fun h : HeatPoint => (hp_latitude h, hp_longitude h) in
  let grid := gridLoop (boundingBox qlat qlon buffer) gridSize in
  map coords (result clock pointInPolygon w polys temperatures globeData gridPoints) =
    map (fun pk => (lat (fst pk), lon (fst pk)))
        (filter (keptByPolicy clock pointInPolygon w polys temperatures)
                (indexed gridPoints))
  /\ (forall p k,
        keptByPolicy clock pointInPolygon w polys temperatures (p, k) = true <->
        (exists polygon, In polygon polys /\
                         pointInPolygon (lon p, lat p) polygon = true) /\
        (0.05 <=? extendedScore clock w temperatures p k) = true)
  /\ map coords' (heatmapData clock pointInPolygon w polys temperatures gridPoints) =
     map (fun p => (lat p, lon p)) gridPoints
  /\ (forall body s',
        beeMapExtended axios_get setTimeout clock pointInPolygon qlat qlon s
          = (inr (Status200 body), s') ->
        exists polys' temperatures',
          map coords body =
          map (fun pk => (lat (fst pk), lon (fst pk)))
              (filter (keptByPolicy clock pointInPolygon (world s') polys' temperatures')
                      (indexed grid)))
  /\ (forall body s',
        beeMapBasic axios_get clock pointInPolygon qlat qlon s
          = (inr (Status200 body), s') ->
        List.length body = (gridSize * gridSize)%nat /\
        map coords' body = map (fun p => (lat p, lon p)) grid).
Proof.
  cbv zeta.
  assert (Hstage : forall w polys temperatures (globeData : list Observation) gridPoints,
            map (fun r => (latitude r, longitude r))
                (result clock pointInPolygon w polys temperatures globeData gridPoints) =
            map (fun pk => (lat (fst pk), lon (fst pk)))
                (filter (keptByPolicy clock pointInPolygon w polys temperatures)
                        (indexed gridPoints))).
  { intros. rewrite result_is_filter, map_map. reflexivity. }
  split; [apply Hstage|].
  split.
  { intros p k. unfold keptByPolicy, hasVegetation_at, JS.geb. cbn [fst snd].
    rewrite andb_true_iff, existsb_exists. reflexivity. }
  split; [apply heatmapData_coordinates|].
  split.
  - intros body s' Hrun.
    destruct (beeMapExtended_ok_body _ _ _ _ _ Hrun) as (polys' & ts & g & _ & ->).
    exists polys', ts. apply Hstage.
  - intros body s' Hrun.
    destruct (beeMapBasic_ok_body _ _ _ _ _ Hrun) as (polys' & ts & ->).
    split.
    + now rewrite heatmapData_length, gridLoop_length.
    + apply heatmapData_coordinates.
Qed.

(** *** Batched temperature fetch *)

Lemma nth_error_mapi_from {A B : Type} (f : A -> nat -> B) (a : list A)
  (start k : nat) (x : A) :
  nth_error a k = Some x ->
  nth_error (mapi_from start f a) k = Some (f x (start + k)%nat).
Proof.
  revert start k. induction a as [|y a IH]; intros start [|k]; cbn; try discriminate.
  - intros [= ->]. now rewrite Nat.add_0_r.
  - intros Hk. rewrite (IH (S start) k Hk). do 2 f_equal. lia.
Qed.

(** Point [k] of the basic result is scored from slot [k] of the
    temperature array. *)
Lemma heatmapData_nth (w : World) (polys : list Polygon)
  (temperatures : list JS.value) (gridPoints : list GridPoint) (k : nat)
  (p : GridPoint) :
  nth_error gridPoints k = Some p ->
  nth_error (heatmapData clock pointInPolygon w polys temperatures gridPoints) k =
  Some (mkHeatPoint (lat p) (lon p)
          (calcularPontuacaoAbelha (clock w k) (temperature_at temperatures k)
             (hasVegetation_at pointInPolygon polys p) (lat p))).
Proof.
  intros Hk. unfold heatmapData, mapi.
  now rewrite (nth_error_mapi_from _ _ 0 k p Hk).
Qed.

(** C7, amended: in batched mode the handler issues one forecast request
    carrying the coordinates of all 225 grid points, to two decimals, in
    grid order, and reads the response by position. When that request is
    rejected, or the body has an entry without [current], the whole request
    fails (status 504 for an aborted connection, 500 otherwise) and no
    point is returned. A response with fewer entries than grid points is
    not rejected: the points beyond its length are scored without a
    temperature and get weight 0. *)
Theorem batched_fetch_behaviour (qlat qlon : float) (s : State World)
  (elements : list (list Node)) (w1 w2 : World) (r2 : Exn + Data) :
  let bbox := boundingBox qlat qlon buffer in
  let grid := gridLoop bbox gridSize in
  let url := ForecastUrl (lat_params grid) (lon_params grid) false in
  let polys := map (fun el => map (fun n => (node_lon n, node_lat n)) el) elements in
  let run := beeMapBasic axios_get clock pointInPolygon qlat qlon s in
  is_nan qlat || is_nan qlon = false ->
  axios_get (OverpassUrl bbox) (Some 25000%Z) (world s) = (inr (OsmJson elements), w1) ->
  axios_get url None w1 = (r2, w2) ->
  requests (snd run) = requests s ++ [OverpassUrl bbox; url]
  /\ List.length (lat_params grid) = 225%nat
  /\ List.length (lon_params grid) = 225%nat
  /\ (forall k p, nth_error grid k = Some p ->
        nth_error (lat_params grid) k = Some (toFixed 2 (lat p)) /\
        nth_error (lon_params grid) k = Some (toFixed 2 (lon p)))
  /\ fst run =
     inr (match r2 with
          | inl (AxiosError ECONNABORTED) => Status504
          | inl _ => Status500
          | inr data =>
            match batchEntries data with
            | None => Status500
            | Some entries =>
              match readable entries with
              | None => Status500
              | Some ts =>
                Status200 (heatmapData clock pointInPolygon w2 polys ts grid)
              end
            end
          end)
  /\ (forall ts k p, nth_error grid k = Some p ->
        nth_error (heatmapData clock pointInPolygon w2 polys ts grid) k =
        Some (mkHeatPoint (lat p) (lon p)
                (calcularPontuacaoAbelha (clock w2 k) (temperature_at ts k)
                   (hasVegetation_at pointInPolygon polys p) (lat p))))
  /\ (forall ts k p, nth_error grid k = Some p -> (List.length ts <= k)%nat ->
        nth_error (heatmapData clock pointInPolygon w2 polys ts grid) k =
        Some (mkHeatPoint (lat p) (lon p) 0)).
Proof.
  cbv zeta. intros Hnan Hosm Hmeteo.
  pose proof (gridLoop_length (boundingBox qlat qlon buffer) gridSize) as Hlen.
  assert (Hrun : beeMapBasic axios_get clock pointInPolygon qlat qlon s =
    (inr (match r2 with
          | inl (AxiosError ECONNABORTED) => Status504
          | inl _ => Status500
          | inr data =>
            match batchEntries data with
            | None => Status500
            | Some entries =>
              match readable entries with
              | None => Status500
              | Some ts =>
                Status200 (heatmapData clock pointInPolygon w2
                  (map (fun el => map (fun n => (node_lon n, node_lat n)) el) elements)
                  ts (gridLoop (boundingBox qlat qlon buffer) gridSize))
              end
            end
          end),
     mkState w2 (requests s ++
       [OverpassUrl (boundingBox qlat qlon buffer);
        ForecastUrl (lat_params (gridLoop (boundingBox qlat qlon buffer) gridSize))
                    (lon_params (gridLoop (boundingBox qlat qlon buffer) gridSize))
                    false]))).
  { unfold beeMapBasic, try_catch. rewrite (basicBody_run _ _ _ Hnan). cbv zeta.
    unfold get at 1. rewrite Hosm.
    unfold get at 1. cbn [world requests]. rewrite Hmeteo.
    unfold push. rewrite <- app_assoc. cbn [app].
    destruct r2 as [e|data].
    - destruct e as [[]|]; reflexivity.
    - destruct (batchEntries data) as [entries|]; [|reflexivity].
      destruct (readable entries); reflexivity. }
  rewrite Hrun. cbn [fst snd requests].
  set (grid := gridLoop _ _) in *. clearbody grid.
  split; [reflexivity|].
  split; [unfold lat_params; now rewrite length_map, Hlen|].
  split; [unfold lon_params; now rewrite length_map, Hlen|].
  split.
  { intros k p Hk. unfold lat_params, lon_params.
    now rewrite !nth_error_map, Hk. }
  split; [reflexivity|].
  split; [intros ts k p; apply heatmapData_nth|].
  intros ts k p Hk Hshort. rewrite (heatmapData_nth _ _ _ _ _ _ Hk).
  unfold temperature_at. now rewrite (nth_overflow _ _ Hshort).
Qed.

End HandlerFacts.

(** A fetched 0 in the simulated world: the vegetated point (40, -3) comes
    back with temperature 25 and the July weight of 25 degrees. *)
Lemma falsy_temperature_replaced_witness :
  JS.truthy (temperature_at [JS.Num 0] 0) = false /\
  scorePoint Sim.clock Sim.pointInPolygon 0%nat
    [map (fun n => (node_lon n, node_lat n)) Sim.square] [JS.Num 0] []
    (mkPoint 40 (-3)) 0 =
  Some {| latitude := 40; longitude := -3; weight := 1;
          temperature := JS.Num 25; globe := None |}.
Proof.
  split; [reflexivity|].
  exact (proj1 (falsy_temperature_replaced Sim.clock Sim.pointInPolygon 0%nat
                  [map (fun n => (node_lon n, node_lat n)) Sim.square]
                  [JS.Num 0] [] (mkPoint 40 (-3)) 0%nat eq_refl)).
Defined.

(** C7 as stated fails: a batched response with a single entry, against 225
    grid points, is not rejected. The request succeeds with all 225 points;
    the first is scored from the one temperature received and the other
    224 silently get weight 0. *)
Lemma misaligned_batch_not_rejected :
  match beeMapBasic (Sim.axios_get 0 [Current (JS.Num 25)] []) Sim.clock
          Sim.pointInPolygon 40 (-3) Sim.start with
  | (inr (Status200 body), _) =>
    List.length body = 225%nat /\
    map hp_weight body = 0.05 :: repeat 0 224
  | _ => False
  end.
Proof. vm_compute. split; reflexivity. Qed.

Lemma batched_fetch_behaviour_witness :
  fst (beeMapBasic (Sim.axios_get 0 [Current (JS.Num 25)] []) Sim.clock
         Sim.pointInPolygon 40 (-3) Sim.start) =
  inr (Status200
         (heatmapData Sim.clock Sim.pointInPolygon 1%nat
            [map (fun n => (node_lon n, node_lat n)) Sim.square] [JS.Num 25]
            (gridLoop (boundingBox 40 (-3) buffer) gridSize))).
Proof.
  exact (proj1 (proj2 (proj2 (proj2 (proj2
    (batched_fetch_behaviour (Sim.axios_get 0 [Current (JS.Num 25)] [])
       Sim.clock Sim.pointInPolygon 40 (-3) Sim.start [Sim.square]
       0%nat 1%nat (inr (ForecastArray [Current (JS.Num 25)]))
       eq_refl eq_refl eq_refl)))))).
Defined.

(** ** Runs on the simulated upstream *)

(** The upstream rejects the request for point 3 only: five slots come
    back, the fallback at index 3 and the fetched values elsewhere. *)
Example sequential_fetch_point_3_fails :
  fst (fetchTemperatures (Sim.axios_get 3 [] []) Sim.setTimeout
         (firstn 5 (gridLoop (boundingBox 40 (-3) buffer) gridSize)) [] Sim.start) =
  inr [JS.Num 20; JS.Num 21; JS.Num 22; JS.Num 25; JS.Num 24].
Proof. vm_compute. reflexivity. Qed.

(** Centre (40, -3), a 3 by 3 grid, one square polygon inside the
    north-east quadrant, 25 degrees everywhere, in July: the one point
    inside the polygon scores 1 and the eight others 0.05. *)
Example basic_stage_three_by_three :
  map hp_weight
    (heatmapData Sim.clock Sim.pointInPolygon 0%nat
       [[(-2.75, 40.25); (-2, 40.25); (-2, 41); (-2.75, 41)]]
       (repeat (JS.Num 25) 9) (generateGrid 40 (-3) 0.5 3)) =
  [0.05; 0.05; 0.05; 0.05; 0.05; 0.05; 0.05; 0.05; 1].
Proof. vm_compute. reflexivity. Qed.

(** The extended handler on the simulated upstream answers 200 with the 64
    grid points of the square that pass the threshold, and has issued the
    Overpass request, 225 forecast requests and the GLOBE request. *)
Example extended_run_simulated :
  match beeMapExtended (Sim.axios_get 3 [] []) Sim.setTimeout Sim.clock
          Sim.pointInPolygon 40 (-3) Sim.start with
  | (inr (Status200 body), s') =>
    List.length body = 64%nat /\ List.length (requests s') = 227%nat
  | _ => False
  end.
Proof. vm_compute. split; reflexivity. Qed.

(** * Further properties of the code *)

(** ** The scorer's thresholds *)

Lemma Prim2SF_15 : Prim2SF 15 = S754_finite false 8444249301319680 (-49).
Proof. reflexivity. Qed.

Lemma Prim2SF_20 : Prim2SF 20 = S754_finite false 5629499534213120 (-48).
Proof. reflexivity. Qed.

Lemma Prim2SF_32 : Prim2SF 32 = S754_finite false 4503599627370496 (-47).
Proof. reflexivity. Qed.

Lemma Prim2SF_38 : Prim2SF 38 = S754_finite false 5348024557502464 (-47).
Proof. reflexivity. Qed.

(** A double that is at least 20 is above 15. *)
Lemma geb_20_gtb_15 (x : float) : (x >=? 20) = true -> (x >? 15) = true.
Proof.
  unfold JS.geb, JS.gtb. rewrite leb_spec, ltb_spec, Prim2SF_15, Prim2SF_20.
  unfold SFleb, SFltb, SFcompare.
  destruct (Prim2SF x) as [s|s| |s m e].
  - intros H; discriminate H.
  - destruct s; intros H; first [reflexivity | discriminate H].
  - intros H; discriminate H.
  - destruct s; [intros H; discriminate H|].
    destruct (Z.compare_spec (-48) e) as [E|E|E];
      destruct (Z.compare_spec (-49) e) as [F|F|F]; intros H;
      first [reflexivity | discriminate H | exfalso; lia].
Qed.

(** A double that is at most 32 is below 38. *)
Lemma leb_32_ltb_38 (x : float) : (x <=? 32) = true -> (x <? 38) = true.
Proof.
  rewrite leb_spec, ltb_spec, Prim2SF_32, Prim2SF_38.
  unfold SFleb, SFltb, SFcompare.
  destruct (Prim2SF x) as [s|s| |s m e].
  - destruct s; intros _; reflexivity.
  - destruct s; intros H; first [reflexivity | discriminate H].
  - intros H; discriminate H.
  - destruct s; [intros _; reflexivity|].
    destruct (Z.compare_spec e (-47)) as [E|E|E];
      [ | intros _; reflexivity | intros H; discriminate H ].
    rewrite 2!Pos.compare_cont_spec. unfold Pos.switch_Eq.
    assert (Hab : ~ (5348024557502464 <= 4503599627370496)%positive)
      by (intros X; vm_compute in X; apply X; reflexivity).
    destruct (Pos.compare_spec m 4503599627370496) as [F|F|F];
      [ | | intros H; discriminate H ];
      destruct (Pos.compare_spec m 5348024557502464) as [G|G|G]; intros _;
      try reflexivity; exfalso; apply Hab.
    + rewrite <- F, <- G. apply Pos.le_refl.
    + rewrite <- F. now apply Pos.lt_le_incl.
    + rewrite <- G. now apply Pos.lt_le_incl.
    + apply Pos.lt_le_incl. now apply (Pos.lt_trans _ m).
Qed.

(** The temperature score of the code is positive exactly on (15, 38). *)
Lemma score_positive_cases (now : Date) (t : float) (v : bool) (latitude : float) :
  (0 <? calcularPontuacaoAbelha now (JS.Num t) v latitude) = (t >? 15) && (t <? 38).
Proof.
  rewrite calcularPontuacaoAbelha_refines.
  unfold ScoreSpec.score, ScoreSpec.temperatureFactor, ScoreSpec.in_closed,
    ScoreSpec.in_open.
  pose proof (geb_20_gtb_15 t) as HA. pose proof (leb_32_ltb_38 t) as HB.
  unfold JS.geb, JS.gtb in *.
  destruct (20 <=? t), (t <=? 32); cbn [andb negb];
    try (rewrite HA by reflexivity); try (rewrite HB by reflexivity);
    destruct (15 <? t), (t <? 38); cbn [andb];
    unfold ScoreSpec.vegetationFactor, ScoreSpec.seasonalityFactor,
      ScoreSpec.northTable, ScoreSpec.southTable;
    split_bools; reflexivity.
Qed.

(** X1: the score is positive exactly when the temperature is a number
    strictly between 15 and 38; a missing temperature and a temperature
    outside that range (NaN included) score 0, whatever the vegetation,
    the latitude and the month. *)
Theorem score_positive_iff_temperate (now : Date) (t : JS.value) (v : bool)
  (latitude : float) :
  (0 <? calcularPontuacaoAbelha now t v latitude) =
    match t with
    | JS.Num x => (x >? 15) && (x <? 38)
    | _ => false
    end
  /\ ((0 <? calcularPontuacaoAbelha now t v latitude) = false ->
      calcularPontuacaoAbelha now t v latitude = 0).
Proof.
  split.
  - destruct t as [| |x]; try reflexivity. apply score_positive_cases.
  - rewrite calcularPontuacaoAbelha_refines.
    destruct t as [| |x]; try reflexivity.
    unfold ScoreSpec.score, ScoreSpec.vegetationFactor, ScoreSpec.temperatureFactor,
      ScoreSpec.seasonalityFactor, ScoreSpec.northTable, ScoreSpec.southTable.
    destruct v, (ScoreSpec.in_closed 20 32 x), (ScoreSpec.in_open 15 38 x),
      (ScoreSpec.northern latitude); cbn [andb negb];
      split_bools; intros H; first [reflexivity | discriminate H].
Qed.

Lemma unvegetated_score_bounded_aux (now : Date) (t : JS.value) (latitude : float) :
  (calcularPontuacaoAbelha now t false latitude <=? 0.05) = true.
Proof.
  rewrite calcularPontuacaoAbelha_refines.
  destruct t as [| |x]; try reflexivity.
  unfold ScoreSpec.score, ScoreSpec.vegetationFactor, ScoreSpec.temperatureFactor,
    ScoreSpec.seasonalityFactor, ScoreSpec.northTable, ScoreSpec.southTable.
  destruct (ScoreSpec.in_closed 20 32 x), (ScoreSpec.in_open 15 38 x),
    (ScoreSpec.northern latitude); cbn [andb negb];
    split_bools; reflexivity.
Qed.

(** X2: without vegetation the score never exceeds 0.05, and it never
    exceeds the score the same point would get with vegetation. *)
Theorem unvegetated_score_bounded (now : Date) (t : JS.value) (latitude : float) :
  (calcularPontuacaoAbelha now t false latitude <=? 0.05) = true
  /\ (calcularPontuacaoAbelha now t false latitude <=?
      calcularPontuacaoAbelha now t true latitude) = true.
Proof.
  rewrite !calcularPontuacaoAbelha_refines.
  destruct t as [| |x]; try (split; reflexivity).
  unfold ScoreSpec.score, ScoreSpec.vegetationFactor, ScoreSpec.temperatureFactor,
    ScoreSpec.seasonalityFactor, ScoreSpec.northTable, ScoreSpec.southTable.
  destruct (ScoreSpec.in_closed 20 32 x), (ScoreSpec.in_open 15 38 x),
    (ScoreSpec.northern latitude); cbn [andb negb];
    split_bools; split; reflexivity.
Qed.

(** The rendering of line 184 is lossless on the scores of vegetated
    points: each has at most three decimals. *)
Lemma weight_rendering_exact (now : Date) (t : JS.value) (latitude : float) :
  parseFloat (toFixed 3 (calcularPontuacaoAbelha now t true latitude)) =
  calcularPontuacaoAbelha now t true latitude.
Proof.
  rewrite calcularPontuacaoAbelha_refines.
  destruct t as [| |x]; try reflexivity.
  unfold ScoreSpec.score, ScoreSpec.vegetationFactor, ScoreSpec.temperatureFactor,
    ScoreSpec.seasonalityFactor, ScoreSpec.northTable, ScoreSpec.southTable.
  destruct (ScoreSpec.in_closed 20 32 x), (ScoreSpec.in_open 15 38 x),
    (ScoreSpec.northern latitude); cbn [andb negb];
    split_bools; vm_compute; reflexivity.
Qed.

(** A kept score is one of five values. *)
Lemma kept_score_values (now : Date) (t : JS.value) (latitude : float) :
  (calcularPontuacaoAbelha now t true latitude >=? 0.05) = true ->
  In (calcularPontuacaoAbelha now t true latitude) [0.05; 0.1; 0.25; 0.5; 1].
Proof.
  rewrite calcularPontuacaoAbelha_refines. unfold JS.geb.
  destruct t as [| |x]; try (intros H; discriminate H).
  unfold ScoreSpec.score, ScoreSpec.vegetationFactor, ScoreSpec.temperatureFactor,
    ScoreSpec.seasonalityFactor, ScoreSpec.northTable, ScoreSpec.southTable.
  destruct (ScoreSpec.in_closed 20 32 x), (ScoreSpec.in_open 15 38 x),
    (ScoreSpec.northern latitude); cbn [andb negb];
    split_bools; intros H; try discriminate H; cbn [In];
    first [ left; reflexivity
          | right; left; reflexivity
          | right; right; left; reflexivity
          | right; right; right; left; reflexivity
          | right; right; right; right; left; reflexivity ].
Qed.

(** X16: the score depends on the latitude only through the test
    [latitude > 0]: two latitudes on the same side get the same score,
    and the equator (0 and -0) and a NaN latitude count as Southern. *)
Theorem score_depends_on_hemisphere_only (now : Date) (t : JS.value) (v : bool)
  (latitude1 latitude2 : float) :
  (latitude1 >? 0) = (latitude2 >? 0) ->
  calcularPontuacaoAbelha now t v latitude1 =
  calcularPontuacaoAbelha now t v latitude2
  /\ calcularPontuacaoAbelha now t v 0 = calcularPontuacaoAbelha now t v (-1)
  /\ calcularPontuacaoAbelha now t v (-0) = calcularPontuacaoAbelha now t v (-1)
  /\ calcularPontuacaoAbelha now t v nan = calcularPontuacaoAbelha now t v (-1).
Proof.
  intros Hside. rewrite !calcularPontuacaoAbelha_refines.
  destruct t as [| |x]; try (repeat split; reflexivity).
  unfold ScoreSpec.score, ScoreSpec.seasonalityFactor, ScoreSpec.northern.
  unfold JS.gtb in Hside. rewrite Hside. repeat split; reflexivity.
Qed.

Lemma month_cases (m : Z) :
  (0 <= m <= 11)%Z ->
  (m = 0 \/ m = 1 \/ m = 2 \/ m = 3 \/ m = 4 \/ m = 5 \/
   m = 6 \/ m = 7 \/ m = 8 \/ m = 9 \/ m = 10 \/ m = 11)%Z.
Proof. lia. Qed.

(** X17: the two seasonal tables are six months apart: a point south of
    the equator scores in month [m] what a point north of it scores in
    month [(m + 6) mod 12], for the same temperature and vegetation. *)
Theorem hemispheres_six_months_apart (now1 now2 : Date) (t : JS.value) (v : bool)
  (south_latitude north_latitude : float) :
  (0 <= getMonth now1 <= 11)%Z ->
  getMonth now2 = ((getMonth now1 + 6) mod 12)%Z ->
  (south_latitude >? 0) = false ->
  (north_latitude >? 0) = true ->
  calcularPontuacaoAbelha now1 t v south_latitude =
  calcularPontuacaoAbelha now2 t v north_latitude.
Proof.
  intros Hm H6 Hs Hn. rewrite !calcularPontuacaoAbelha_refines, H6.
  destruct t as [| |x]; try reflexivity.
  unfold ScoreSpec.score, ScoreSpec.seasonalityFactor, ScoreSpec.northern.
  unfold JS.gtb in Hs, Hn. rewrite Hs, Hn. f_equal.
  destruct (month_cases _ Hm) as [E|[E|[E|[E|[E|[E|[E|[E|[E|[E|[E|E]]]]]]]]]]];
    rewrite E; reflexivity.
Qed.

(** ** Further properties of the handlers *)

Section MoreHandlerFacts.

Context {World : Type}.
Variable axios_get : Url -> option Z -> World -> (Exn + Data) * World.
Variable setTimeout : Z -> World -> World.
Variable clock : World -> nat -> Date.
Variable pointInPolygon : float * float -> Polygon -> bool.

(** *** Per-point requests *)

Lemma pointTemperature_state (data : Data) (s : State World) :
  snd (pointTemperature (World := World) data s) = s.
Proof. destruct data as [| |[|t]| |]; reflexivity. Qed.

Lemma fetchOne_state (point : GridPoint) (s : State World) :
  snd (fetchOne axios_get point s) =
  mkState (snd (axios_get (pointUrl point) (Some 15000%Z) (world s)))
          (requests s ++ [pointUrl point]).
Proof.
  unfold fetchOne, bind, get, pointUrl, push.
  destruct (axios_get _ _ (world s)) as [[e|data] w]; [reflexivity|].
  cbn [snd]. pose proof (pointTemperature_state data
    (mkState w (requests s ++
       [ForecastUrl [toFixed 4 (lat point)] [toFixed 4 (lon point)] true]))) as H.
  destruct (pointTemperature data _) as [r s1]. exact H.
Qed.

Lemma fetchTemperatures_requests (gridPoints : list GridPoint)
  (acc : list JS.value) (s : State World) :
  requests (snd (fetchTemperatures axios_get setTimeout gridPoints acc s)) =
  requests s ++ map pointUrl gridPoints.
Proof.
  revert acc s. induction gridPoints as [|point rest IH]; intros acc s.
  - cbn. now rewrite app_nil_r.
  - rewrite fetchTemperatures_step, IH, fetchOne_state. unfold sleep.
    cbn [snd requests map]. now rewrite <- app_assoc.
Qed.

(** X3: the sequential fetch issues exactly one forecast request per grid
    point, in grid order, each carrying that point's coordinates to four
    decimals, whatever the outcomes of the earlier requests: a failed
    request is not retried and does not stop the later ones. *)
Theorem sequential_requests_in_order (gridPoints : list GridPoint)
  (acc : list JS.value) (s : State World) :
  requests (snd (fetchTemperatures axios_get setTimeout gridPoints acc s)) =
    requests s ++
    map (fun point =>
           ForecastUrl [toFixed 4 (lat point)] [toFixed 4 (lon point)] true)
        gridPoints
  /\ List.length (requests (snd (fetchTemperatures axios_get setTimeout gridPoints acc s))) =
     (List.length (requests s) + List.length gridPoints)%nat.
Proof.
  rewrite fetchTemperatures_requests. split; [reflexivity|].
  now rewrite length_app, length_map.
Qed.

Lemma fetchTemperatures_elapsed (elapsed : World -> Z)
  (gridPoints : list GridPoint) (acc : list JS.value) (s : State World) :
  (forall ms w, elapsed (setTimeout ms w) = elapsed w + ms)%Z ->
  (forall url t w, elapsed w <= elapsed (snd (axios_get url t w)))%Z ->
  (elapsed (world s) + DELAY_MS * Z.of_nat (List.length gridPoints) <=
   elapsed (world (snd (fetchTemperatures axios_get setTimeout gridPoints acc s))))%Z.
Proof.
  intros Htimer Hget. revert acc s.
  induction gridPoints as [|point rest IH]; intros acc s.
  - cbn. lia.
  - rewrite fetchTemperatures_step.
    eapply Z.le_trans; [|apply IH].
    rewrite fetchOne_state. unfold sleep. cbn [snd world].
    rewrite Htimer.
    pose proof (Hget (pointUrl point) (Some 15000%Z) (world s)).
    cbn [List.length]. lia.
Qed.

(** X4: the sequential fetch pauses after every point, failed or not: in
    a world where a timer of [ms] milliseconds takes [ms] and no request
    takes negative time, fetching [n] points takes at least [1500 * n]
    milliseconds. *)
Theorem sequential_latency (elapsed : World -> Z)
  (gridPoints : list GridPoint) (acc : list JS.value) (s : State World) :
  (forall ms w, elapsed (setTimeout ms w) = elapsed w + ms)%Z ->
  (forall url t w, elapsed w <= elapsed (snd (axios_get url t w)))%Z ->
  (elapsed (world s) + 1500 * Z.of_nat (List.length gridPoints) <=
   elapsed (world (snd (fetchTemperatures axios_get setTimeout gridPoints acc s))))%Z.
Proof. apply fetchTemperatures_elapsed. Qed.

(** *** GLOBE observations *)

Lemma fetchGlobeData_run (b : BoundingBox) (s : State World) :
  fetchGlobeData axios_get b s =
  (inr (match fst (axios_get GlobeUrl (Some 20000%Z) (world s)) with
        | inr (GeoJson (Some features)) =>
          filter (inBox b) (map toObservation features)
        | _ => []
        end),
   mkState (snd (axios_get GlobeUrl (Some 20000%Z) (world s)))
           (requests s ++ [GlobeUrl])).
Proof.
  unfold fetchGlobeData, try_catch, bind, ret, get, push.
  destruct (axios_get GlobeUrl _ (world s)) as [[e|data] w]; [reflexivity|].
  destruct data as [| | |[fs|]|]; reflexivity.
Qed.

Lemma filter_ext_in_box (b : BoundingBox) (l : list Observation) :
  filter (inBox b) l =
  filter (fun g =>
            (south b <=? nth 1 (coordinates g) nan) &&
            (nth 1 (coordinates g) nan <=? north b) &&
            (west b <=? nth 0 (coordinates g) nan) &&
            (nth 0 (coordinates g) nan <=? east b)) l.
Proof. apply filter_ext. intros g. reflexivity. Qed.

(** X5: [fetchGlobeData] never throws and issues exactly one request. A
    rejected request, and every body that is not a [features] array of
    well-formed features, gives the empty list. A [features] array of
    well-formed features gives, in upstream order, the record
    [{id, siteName, countryName, organizationName, elevation, coordinates}]
    of each feature whose latitude [coordinates[1]] lies in the closed
    interval [south, north] and whose longitude [coordinates[0]] lies in
    the closed interval [west, east]: exactly those, each as often as it
    occurs. *)
Theorem fetchGlobeData_inside_box (b : BoundingBox) (s : State World) :
  let out := axios_get GlobeUrl (Some 20000%Z) (world s) in
  let record := fun f : Feature =>
    {| id := f_id f;
       siteName := p_siteName (f_properties f);
       countryName := p_countryName (f_properties f);
       organizationName := p_organizationName (f_properties f);
       elevation := p_elevation (f_properties f);
       coordinates := f_coordinates f |} in
  let inside := fun f : Feature =>
    (south b <=? nth 1 (f_coordinates f) nan) &&
    (nth 1 (f_coordinates f) nan <=? north b) &&
    (west b <=? nth 0 (f_coordinates f) nan) &&
    (nth 0 (f_coordinates f) nan <=? east b) in
  exists globeData,
    fetchGlobeData axios_get b s =
      (inr globeData, mkState (snd out) (requests s ++ [GlobeUrl]))
    /\ (forall e, fst out = inl e -> globeData = [])
    /\ (forall data, fst out = inr data ->
          (forall features, data <> GeoJson (Some features)) -> globeData = [])
    /\ (forall features, fst out = inr (GeoJson (Some features)) ->
          globeData = map record (filter inside features) /\
          (forall g, In g globeData <->
                     exists f, In f features /\ inside f = true /\ g = record f) /\
          (forall f, In f features ->
             (In (record f) globeData <->
              (south b <=? nth 1 (f_coordinates f) nan) = true /\
              (nth 1 (f_coordinates f) nan <=? north b) = true /\
              (west b <=? nth 0 (f_coordinates f) nan) = true /\
              (nth 0 (f_coordinates f) nan <=? east b) = true))).
Proof.
  cbv zeta. eexists. split; [apply fetchGlobeData_run|].
  destruct (fst (axios_get GlobeUrl _ (world s))) as [e|data].
  { split; [reflexivity|]. split; intros; discriminate. }
  split; [intros; discriminate|].
  split.
  { intros data' [= <-] Hbad.
    destruct data as [| | |[fs|]|]; try reflexivity.
    exfalso. now apply (Hbad fs). }
  intros features [= ->].
  assert (Heq : filter (inBox b) (map toObservation features) =
                map toObservation
                  (filter (fun f =>
                     (south b <=? nth 1 (f_coordinates f) nan) &&
                     (nth 1 (f_coordinates f) nan <=? north b) &&
                     (west b <=? nth 0 (f_coordinates f) nan) &&
                     (nth 0 (f_coordinates f) nan <=? east b)) features)).
  { rewrite filter_ext_in_box.
    induction features as [|f l IH]; [reflexivity|].
    cbn [map filter]. cbn [toObservation coordinates] in *.
    destruct (_ && _); cbn [map]; now rewrite IH. }
  rewrite Heq. split; [reflexivity|].
  split.
  - intros g. rewrite in_map_iff. split.
    + intros (f & <- & Hf). apply filter_In in Hf as [Hin Hbox]. now exists f.
    + intros (f & Hin & Hbox & ->). exists f. split; [reflexivity|].
      apply filter_In. now split.
  - intros f Hf. split.
    + intros Hin. apply in_map_iff in Hin as (f' & Hrec & Hin').
      apply filter_In in Hin' as [_ Hbox].
      assert (Hc : f_coordinates f' = f_coordinates f)
        by exact (f_equal coordinates Hrec).
      cbv beta in Hbox. rewrite Hc, !andb_true_iff in Hbox. tauto.
    + intros (H1 & H2 & H3 & H4). apply in_map_iff. exists f.
      split; [reflexivity|]. apply filter_In. split; [exact Hf|].
      cbv beta. now rewrite H1, H2, H3, H4.
Qed.

Lemma leb_nan_r (x : float) : (x <=? nan) = false.
Proof.
  rewrite leb_spec. replace (Prim2SF nan) with S754_nan by reflexivity.
  unfold SFleb, SFcompare. now destruct (Prim2SF x).
Qed.

Lemma abs_sub_nan_ltb (x y : float) : (abs (nan - x) <? y) = false.
Proof.
  rewrite ltb_spec, abs_spec, sub_spec.
  replace (Prim2SF nan) with S754_nan by reflexivity.
  unfold SF64sub, SFsub, SFabs, SFltb, SFcompare. reflexivity.
Qed.

(** X6: an observation whose [coordinates] array has fewer than two
    elements is never inside the box and never near a grid point: the
    missing coordinate reads as [undefined], and every comparison with it
    is false. *)
Theorem short_coordinates_never_match (b : BoundingBox) (point : GridPoint)
  (g : Observation) :
  (List.length (coordinates g) < 2)%nat ->
  inBox b g = false /\ near point g = false.
Proof.
  intros Hshort.
  assert (H1 : at_index (coordinates g) 1 = nan)
    by (unfold at_index; apply nth_overflow; lia).
  unfold inBox, near, JS.geb. rewrite H1, leb_nan_r, abs_sub_nan_ltb.
  split; reflexivity.
Qed.

(** *** Responses of the two handlers *)

Lemma nan_coordinates_rejected_aux (qlat qlon : float) (s : State World) :
  is_nan qlat || is_nan qlon = true ->
  beeMapBasic axios_get clock pointInPolygon qlat qlon s = (inr Status400, s)
  /\ beeMapExtended axios_get setTimeout clock pointInPolygon qlat qlon s
     = (inr Status400, s).
Proof.
  intros Hnan.
  unfold beeMapBasic, beeMapExtended, try_catch, basicBody, extendedBody.
  rewrite Hnan. split; reflexivity.
Qed.

(** X7: with an unparseable latitude or longitude (NaN) both handlers
    answer 400 at once: no request is issued and the world is untouched. *)
Theorem nan_coordinates_rejected (qlat qlon : float) (s : State World) :
  is_nan qlat || is_nan qlon = true ->
  beeMapBasic axios_get clock pointInPolygon qlat qlon s = (inr Status400, s)
  /\ beeMapExtended axios_get setTimeout clock pointInPolygon qlat qlon s
     = (inr Status400, s).
Proof.
  apply nan_coordinates_rejected_aux.
Qed.

Ltac close_response Hnan :=
  eexists _, _; split; [reflexivity|]; rewrite ?Hnan;
  repeat split; intros H; discriminate H.

(** X8: no exception escapes the handlers. In a run in which every
    awaited request settles (resolves or rejects; a request that stays
    pending for ever, as the forecast request of the basic variant can
    since it sets no timeout, is no such run) every exception thrown
    inside the [try] block, by a rejected request or by a read on a
    malformed body, is caught and turned into a response: the run ends
    with a status, never with an exception. The status is 400 exactly when
    a coordinate is NaN, and the extended handler never answers 504. *)
Theorem handlers_catch_every_exception (qlat qlon : float) (s : State World) :
  ((forall e,
      fst (beeMapBasic axios_get clock pointInPolygon qlat qlon s) <> inl e) /\
   (forall e,
      fst (beeMapExtended axios_get setTimeout clock pointInPolygon qlat qlon s)
        <> inl e))
  /\ (exists r s',
       beeMapBasic axios_get clock pointInPolygon qlat qlon s = (inr r, s') /\
       (r = Status400 <-> is_nan qlat || is_nan qlon = true))
  /\ (exists r s',
       beeMapExtended axios_get setTimeout clock pointInPolygon qlat qlon s
         = (inr r, s') /\
       (r = Status400 <-> is_nan qlat || is_nan qlon = true) /\
       r <> Status504).
Proof.
  assert (Hmain :
    (exists r s',
       beeMapBasic axios_get clock pointInPolygon qlat qlon s = (inr r, s') /\
       (r = Status400 <-> is_nan qlat || is_nan qlon = true))
    /\ (exists r s',
         beeMapExtended axios_get setTimeout clock pointInPolygon qlat qlon s
           = (inr r, s') /\
         (r = Status400 <-> is_nan qlat || is_nan qlon = true) /\
         r <> Status504));
    [|destruct Hmain as [(r1 & s1 & E1 & H1) (r2 & s2 & E2 & H2)];
      split; [split; intros e; [rewrite E1|rewrite E2]; discriminate|];
      split; [exists r1, s1; now split | exists r2, s2; now split]].
  destruct (is_nan qlat || is_nan qlon) eqn:Hnan.
  - destruct (nan_coordinates_rejected_aux qlat qlon s Hnan) as [-> ->].
    split; eexists _, _; (split; [reflexivity|]).
    + tauto.
    + split; [tauto|discriminate].
  - split.
    + unfold beeMapBasic, try_catch. rewrite (basicBody_run _ _ _ _ _ _ Hnan).
      cbv zeta. set (grid := gridLoop _ _). clearbody grid.
      destruct (get axios_get _ _ s) as [[e|data] s1].
      { destruct e as [[]|]; close_response Hnan. }
      destruct data; try close_response Hnan.
      destruct (get axios_get _ _ s1) as [[e|data] s2].
      { destruct e as [[]|]; close_response Hnan. }
      destruct (batchEntries data) as [entries|]; [|close_response Hnan].
      destruct (readable entries); close_response Hnan.
    + unfold beeMapExtended, try_catch. rewrite (extendedBody_run _ _ _ _ _ _ _ Hnan).
      cbv zeta. set (grid := gridLoop _ _). clearbody grid.
      destruct (get axios_get _ _ s) as [[e|data] s1]; [close_response Hnan|].
      destruct data; try close_response Hnan.
      destruct (fetchGlobeData axios_get _ _) as [[e|g] s3]; close_response Hnan.
Qed.

(** X9: when the Overpass request is rejected, or its body has no
    [elements], nothing else is requested. The basic handler answers 504
    for an aborted connection (a timeout) and 500 otherwise; the extended
    handler answers 500 in every case. *)
Theorem overpass_failure_fails_request (qlat qlon : float) (s : State World)
  (r1 : Exn + Data) (w1 : World) :
  let bbox := boundingBox qlat qlon buffer in
  is_nan qlat || is_nan qlon = false ->
  axios_get (OverpassUrl bbox) (Some 25000%Z) (world s) = (r1, w1) ->
  (forall elements, r1 <> inr (OsmJson elements)) ->
  beeMapBasic axios_get clock pointInPolygon qlat qlon s =
    (inr (match r1 with
          | inl (AxiosError ECONNABORTED) => Status504
          | _ => Status500
          end),
     mkState w1 (requests s ++ [OverpassUrl bbox]))
  /\ beeMapExtended axios_get setTimeout clock pointInPolygon qlat qlon s =
     (inr Status500, mkState w1 (requests s ++ [OverpassUrl bbox])).
Proof.
  cbv zeta. intros Hnan Hosm Hbad.
  unfold beeMapBasic, beeMapExtended, try_catch.
  rewrite (basicBody_run _ _ _ _ _ _ Hnan), (extendedBody_run _ _ _ _ _ _ _ Hnan).
  cbv zeta. set (grid := gridLoop _ _). clearbody grid.
  unfold get at 1 3. rewrite Hosm. unfold push.
  destruct r1 as [e|data].
  - destruct e as [[]|]; split; reflexivity.
  - destruct data; try (split; reflexivity).
    exfalso. eapply Hbad. reflexivity.
Qed.

Lemma pointOutcomes_requests (gridPoints : list GridPoint) (s : State World) :
  requests (snd (pointOutcomes axios_get setTimeout gridPoints s)) =
  requests s ++ map pointUrl gridPoints.
Proof.
  rewrite <- (fetchTemperatures_requests gridPoints [] s).
  now rewrite fetchTemperatures_outcomes.
Qed.

(** The run of the extended handler once Overpass has answered. *)
Lemma beeMapExtended_run (qlat qlon : float) (s : State World)
  (elements : list (list Node)) (w1 : World) :
  let bbox := boundingBox qlat qlon buffer in
  let grid := gridLoop bbox gridSize in
  let polys := map (fun el => map (fun n => (node_lon n, node_lat n)) el) elements in
  let run := pointOutcomes axios_get setTimeout grid
               (mkState w1 (requests s ++ [OverpassUrl bbox])) in
  let out := axios_get GlobeUrl (Some 20000%Z) (world (snd run)) in
  let globeData :=
    match fst out with
    | inr (GeoJson (Some features)) => filter (inBox bbox) (map toObservation features)
    | _ => []
    end in
  is_nan qlat || is_nan qlon = false ->
  axios_get (OverpassUrl bbox) (Some 25000%Z) (world s) = (inr (OsmJson elements), w1) ->
  beeMapExtended axios_get setTimeout clock pointInPolygon qlat qlon s =
  (inr (Status200 (result clock pointInPolygon (snd out) polys
                     (map recover (fst run)) globeData grid)),
   mkState (snd out)
     (requests s ++ OverpassUrl bbox :: map pointUrl grid ++ [GlobeUrl])).
Proof.
  cbv zeta. intros Hnan Hosm.
  unfold beeMapExtended, try_catch.
  rewrite (extendedBody_run _ _ _ _ _ _ _ Hnan). cbv zeta.
  set (grid := gridLoop _ _). clearbody grid.
  unfold get at 1. rewrite Hosm. unfold push.
  rewrite fetchGlobeData_run, pointOutcomes_requests. cbn [world requests].
  rewrite <- !app_assoc. reflexivity.
Qed.

(** X10: every weight the extended variant returns is the score itself
    (rounding it to three decimals changes nothing) and is one of 0.05,
    0.1, 0.25, 0.5 and 1. *)
Theorem extended_weights_exact (w : World) (polys : list Polygon)
  (temperatures : list JS.value) (globeData : list Observation)
  (gridPoints : list GridPoint) :
  map weight (result clock pointInPolygon w polys temperatures globeData gridPoints) =
    map (fun pk =>
           calcularPontuacaoAbelha (clock w (snd pk))
             (JS.or_else (temperature_at temperatures (snd pk)) (JS.Num 25))
             true (lat (fst pk)))
        (filter (keptByPolicy clock pointInPolygon w polys temperatures)
                (indexed gridPoints))
  /\ Forall (fun r => In (weight r) [0.05; 0.1; 0.25; 0.5; 1])
       (result clock pointInPolygon w polys temperatures globeData gridPoints).
Proof.
  rewrite result_is_filter. split.
  - rewrite map_map. apply map_ext. intros pk.
    unfold toScoredPoint, extendedScore. cbn [weight].
    apply weight_rendering_exact.
  - apply Forall_forall. intros r Hr.
    apply in_map_iff in Hr as (pk & <- & Hpk).
    apply filter_In in Hpk as [_ Hkept].
    unfold keptByPolicy in Hkept. apply andb_true_iff in Hkept as [_ Hscore].
    unfold toScoredPoint, extendedScore in *. cbn [weight].
    rewrite weight_rendering_exact. now apply kept_score_values.
Qed.

Lemma kept_temperature (now : Date) (t : JS.value) (latitude : float) :
  (calcularPontuacaoAbelha now t true latitude >=? 0.05) = true ->
  exists x, t = JS.Num x /\ (x >? 15) = true /\ (x <? 38) = true.
Proof.
  intros Hkept. pose proof (kept_score_values now t latitude Hkept) as Hin.
  destruct t as [| |x]; try (unfold JS.geb in Hkept; discriminate Hkept).
  exists x. split; [reflexivity|].
  apply andb_true_iff. rewrite <- (score_positive_cases now x true latitude).
  cbn [In] in Hin.
  destruct Hin as [<-|[<-|[<-|[<-|[<-|[]]]]]]; reflexivity.
Qed.

(** X11: every point the extended variant returns carries a numeric
    temperature strictly between 15 and 38 degrees: a point whose
    temperature lies outside scores 0 and is dropped, and a missing or
    falsy temperature has been replaced by 25. *)
Theorem returned_temperatures_temperate (w : World) (polys : list Polygon)
  (temperatures : list JS.value) (globeData : list Observation)
  (gridPoints : list GridPoint) :
  Forall (fun r => exists x, temperature r = JS.Num x /\
                             (x >? 15) = true /\ (x <? 38) = true)
    (result clock pointInPolygon w polys temperatures globeData gridPoints).
Proof.
  rewrite result_is_filter. apply Forall_forall. intros r Hr.
  apply in_map_iff in Hr as (pk & <- & Hpk).
  apply filter_In in Hpk as [_ Hkept].
  unfold keptByPolicy in Hkept. apply andb_true_iff in Hkept as [_ Hscore].
  unfold toScoredPoint, extendedScore in *. cbn [temperature].
  now apply (kept_temperature (clock w (snd pk)) _ (lat (fst pk))).
Qed.

Lemma result_no_polygons (w : World) (temperatures : list JS.value)
  (globeData : list Observation) (gridPoints : list GridPoint) :
  result clock pointInPolygon w [] temperatures globeData gridPoints = [].
Proof.
  unfold result, mapi. generalize 0%nat.
  induction gridPoints as [|p l IH]; intros start; [reflexivity|].
  cbn [mapi_from filter_Boolean]. unfold scorePoint at 1, hasVegetation_at.
  cbn [existsb negb]. apply IH.
Qed.

(** X12: when Overpass finds no vegetation polygon, the extended handler
    answers 200 with an empty list (after fetching every temperature all
    the same), and every point of the basic result weighs at most 0.05. *)
Theorem no_vegetation_polygons (qlat qlon : float) (s : State World) (w1 : World)
  (w : World) (temperatures : list JS.value) (gridPoints : list GridPoint) :
  let bbox := boundingBox qlat qlon buffer in
  is_nan qlat || is_nan qlon = false ->
  axios_get (OverpassUrl bbox) (Some 25000%Z) (world s) = (inr (OsmJson []), w1) ->
  fst (beeMapExtended axios_get setTimeout clock pointInPolygon qlat qlon s)
    = inr (Status200 [])
  /\ List.length
       (requests (snd (beeMapExtended axios_get setTimeout clock pointInPolygon
                         qlat qlon s))) =
     (List.length (requests s) + 227)%nat
  /\ Forall (fun h => (hp_weight h <=? 0.05) = true)
       (heatmapData clock pointInPolygon w [] temperatures gridPoints).
Proof.
  cbv zeta. intros Hnan Hosm.
  rewrite (beeMapExtended_run _ _ _ _ _ Hnan Hosm). cbn [fst snd map requests].
  split; [now rewrite result_no_polygons|].
  split.
  - rewrite length_app. cbn [List.length].
    rewrite length_app, length_map, gridLoop_length. cbn [List.length].
    change (gridSize * gridSize)%nat with 225%nat. lia.
  - unfold heatmapData, mapi. generalize 0%nat.
    induction gridPoints as [|p l IH]; intros start; constructor.
    + cbn [hp_weight]. unfold hasVegetation_at. cbn [existsb].
      apply unvegetated_score_bounded_aux.
    + apply IH.
Qed.

(** X13: the GLOBE observations only decorate the result: which points
    are returned, and their coordinates, weights and temperatures, do not
    depend on them, and with no observation every [globe] field is null. *)
Theorem globe_only_decorates (w : World) (polys : list Polygon)
  (temperatures : list JS.value) (globeData : list Observation)
  (gridPoints : list GridPoint) :
  map (fun r => (latitude r, longitude r, weight r, temperature r))
      (result clock pointInPolygon w polys temperatures globeData gridPoints) =
  map (fun r => (latitude r, longitude r, weight r, temperature r))
      (result clock pointInPolygon w polys temperatures [] gridPoints)
  /\ Forall (fun r => globe r = None)
       (result clock pointInPolygon w polys temperatures [] gridPoints).
Proof.
  rewrite !result_is_filter, !map_map. split.
  - apply map_ext. intros pk. reflexivity.
  - apply Forall_forall. intros r Hr.
    apply in_map_iff in Hr as (pk & <- & _). reflexivity.
Qed.

(** X14: once Overpass has answered with polygons, the extended handler
    answers 200 whatever the forecast and GLOBE requests do, and it has
    issued, in this order, the Overpass request, one forecast request per
    grid point in grid order, and the GLOBE request: 227 requests. *)
Theorem extended_request_sequence (qlat qlon : float) (s : State World)
  (elements : list (list Node)) (w1 : World) :
  let bbox := boundingBox qlat qlon buffer in
  let grid := gridLoop bbox gridSize in
  let run := beeMapExtended axios_get setTimeout clock pointInPolygon qlat qlon s in
  is_nan qlat || is_nan qlon = false ->
  axios_get (OverpassUrl bbox) (Some 25000%Z) (world s) = (inr (OsmJson elements), w1) ->
  (exists body, fst run = inr (Status200 body))
  /\ requests (snd run) =
     requests s ++
     OverpassUrl bbox ::
     map (fun point =>
            ForecastUrl [toFixed 4 (lat point)] [toFixed 4 (lon point)] true) grid ++
     [GlobeUrl]
  /\ List.length (requests (snd run)) = (List.length (requests s) + 227)%nat.
Proof.
  cbv zeta. intros Hnan Hosm.
  rewrite (beeMapExtended_run _ _ _ _ _ Hnan Hosm). cbn [fst snd requests].
  split; [eexists; reflexivity|].
  split; [reflexivity|].
  rewrite length_app. cbn [List.length].
  rewrite length_app, length_map, gridLoop_length. cbn [List.length].
  change (gridSize * gridSize)%nat with 225%nat. lia.
Qed.



End MoreHandlerFacts.

Lemma sequential_latency_witness :
  (0 + 1500 * Z.of_nat (List.length (firstn 3 (generateGrid 40 (-3) 0.5 3))) <=
   world (snd (fetchTemperatures Probe.timed_get Probe.timed_setTimeout
                 (firstn 3 (generateGrid 40 (-3) 0.5 3)) [] (mkState 0%Z []))))%Z.
Proof.
  apply (sequential_latency Probe.timed_get Probe.timed_setTimeout (fun w => w)
           (firstn 3 (generateGrid 40 (-3) 0.5 3)) [] (mkState 0%Z [])).
  - intros ms w. reflexivity.
  - intros url t w. unfold Probe.timed_get.
    destruct url as [b|la lo [|]|]; destruct t; cbn [snd]; lia.
Defined.

Lemma short_coordinates_never_match_witness :
  (List.length (coordinates Probe.stub) < 2)%nat /\
  inBox (boundingBox 40 (-3) buffer) Probe.stub = false /\
  near (mkPoint 40 (-3)) Probe.stub = false.
Proof.
  assert (H : (List.length (coordinates Probe.stub) < 2)%nat) by (cbn; lia).
  split; [exact H|].
  exact (short_coordinates_never_match (boundingBox 40 (-3) buffer)
           (mkPoint 40 (-3)) Probe.stub H).
Defined.

Lemma nan_coordinates_rejected_witness :
  is_nan nan || is_nan (-3) = true /\
  beeMapExtended (Sim.axios_get 3 [] []) Sim.setTimeout Sim.clock
    Sim.pointInPolygon nan (-3) Sim.start = (inr Status400, Sim.start).
Proof.
  split; [reflexivity|].
  exact (proj2 (nan_coordinates_rejected (Sim.axios_get 3 [] []) Sim.setTimeout
                  Sim.clock Sim.pointInPolygon nan (-3) Sim.start eq_refl)).
Defined.

Lemma overpass_failure_fails_request_witness :
  beeMapBasic (Probe.axios_get (inl (AxiosError ECONNABORTED)) (inr OtherJson))
    Sim.clock Sim.pointInPolygon 40 (-3) Sim.start =
  (inr Status504, mkState 0%nat [OverpassUrl (boundingBox 40 (-3) buffer)]).
Proof.
  refine (proj1 (overpass_failure_fails_request
                   (Probe.axios_get (inl (AxiosError ECONNABORTED)) (inr OtherJson))
                   Sim.setTimeout Sim.clock Sim.pointInPolygon 40 (-3) Sim.start
                   (inl (AxiosError ECONNABORTED)) 0%nat eq_refl eq_refl _)).
  intros elements H. discriminate H.
Defined.

Lemma no_vegetation_polygons_witness :
  fst (beeMapExtended (Probe.axios_get (inr (OsmJson [])) (inr OtherJson))
         Sim.setTimeout Sim.clock Sim.pointInPolygon 40 (-3) Sim.start) =
  inr (Status200 []).
Proof.
  exact (proj1 (no_vegetation_polygons
                  (Probe.axios_get (inr (OsmJson [])) (inr OtherJson))
                  Sim.setTimeout Sim.clock Sim.pointInPolygon 40 (-3) Sim.start
                  0%nat 0%nat [] [] eq_refl eq_refl)).
Defined.

Lemma extended_request_sequence_witness :
  List.length
    (requests (snd (beeMapExtended (Sim.axios_get 3 [] []) Sim.setTimeout Sim.clock
                      Sim.pointInPolygon 40 (-3) Sim.start))) = (0 + 227)%nat.
Proof.
  exact (proj2 (proj2 (extended_request_sequence (Sim.axios_get 3 [] [])
                         Sim.setTimeout Sim.clock Sim.pointInPolygon 40 (-3)
                         Sim.start [Sim.square] 0%nat eq_refl eq_refl))).
Defined.

Lemma score_depends_on_hemisphere_only_witness :
  (0.001 >? 0) = (89 >? 0) /\
  calcularPontuacaoAbelha (mkDate 2025 9 1) (JS.Num 25) true 0.001 =
  calcularPontuacaoAbelha (mkDate 2025 9 1) (JS.Num 25) true 89.
Proof.
  split; [reflexivity|].
  exact (proj1 (score_depends_on_hemisphere_only (mkDate 2025 9 1) (JS.Num 25)
                  true 0.001 89 eq_refl)).
Defined.

Lemma hemispheres_six_months_apart_witness :
  calcularPontuacaoAbelha (mkDate 2025 9 1) (JS.Num 25) true (-10) =
  calcularPontuacaoAbelha (mkDate 2025 3 1) (JS.Num 25) true 10.
Proof.
  apply (hemispheres_six_months_apart (mkDate 2025 9 1) (mkDate 2025 3 1)).
  - cbn. lia.
  - reflexivity.
  - reflexivity.
  - reflexivity.
Defined.
